(** * The NetBox plugin registry (extras/plugins/__init__.py)

    A shallow embedding of the plugin subsystem: the plugin descriptor's
    [validate], the menu classes' constructors and the registrar functions
    that fill [registry['plugins']].  Python functions that mutate an object
    and may raise are functions of the state that return an outcome together
    with the state they leave behind, so that what a raising call has already
    written stays visible. *)

From Stdlib Require Import Ascii.
From stdpp Require Import base strings list gmap fin_maps.

Open Scope string_scope.
Open Scope list_scope.

(** ** Python classes and objects *)

(** The classes that occur in the module.  [ty_class name base] is a class
    declared elsewhere as [class name(base)]. *)
Inductive pytype : Type :=
| ty_object
| ty_type
| ty_NoneType
| ty_bool
| ty_int
| ty_str
| ty_list
| ty_tuple
| ty_PluginTemplateExtension
| ty_PluginMenu
| ty_PluginMenuItem
| ty_PluginMenuButton
| ty_class (name : string) (base : pytype).

Global Instance pytype_eq_dec : EqDecision pytype.
Proof. solve_decision. Defined.

(** Method resolution order of a class: itself, then its bases. *)
Fixpoint mro (t : pytype) : list pytype :=
  match t with
  | ty_object => [ty_object]
  | ty_bool => [ty_bool; ty_int; ty_object]
  | ty_class _ base => t :: mro base
  | _ => [t; ty_object]
  end.

(** [issubclass(t, u)] *)
Definition issubclass (t u : pytype) : bool := bool_decide (u ∈ mro t).

(** Python values.  [PySeq t items] is an instance of [list], of [tuple] or
    of a subclass of either, [t] being its exact class.  [PyClass c model] is
    the class object [c] with the value its [model] attribute resolves to
    ([None], or a string '<app_label>.<model_name>').  [PyInst t attrs] is an
    instance of class [t] with its instance dictionary. *)
#[warnings="-register-all"]
Inductive pyobj : Type :=
| PyNone
| PyBool (b : bool)
| PyInt (z : Z)
| PyStr (s : string)
| PySeq (t : pytype) (items : list pyobj)
| PyClass (c : pytype) (model : option string)
| PyInst (t : pytype) (attrs : list (string * pyobj)).

(** [type(o)] *)
Definition type_of (o : pyobj) : pytype :=
  match o with
  | PyNone => ty_NoneType
  | PyBool _ => ty_bool
  | PyInt _ => ty_int
  | PyStr _ => ty_str
  | PySeq t _ => t
  | PyClass _ _ => ty_type
  | PyInst t _ => t
  end.

(** [isinstance(o, t)] *)
Definition isinstance (o : pyobj) (t : pytype) : bool :=
  issubclass (type_of o) t.

(** [o is None] *)
Definition is_None (o : pyobj) : bool :=
  match o with PyNone => true | _ => false end.

(** [inspect.isclass(o)] *)
Definition inspect_isclass (o : pyobj) : bool :=
  match o with PyClass _ _ => true | _ => false end.

(** [issubclass(o, t)] for a class object [o]. *)
Definition class_issubclass (o : pyobj) (t : pytype) : bool :=
  match o with PyClass c _ => issubclass c t | _ => false end.

(** [o.model] for a class object [o]. *)
Definition class_model (o : pyobj) : option string :=
  match o with PyClass _ model => model | _ => None end.

(** [type(x) not in (list, tuple)]: a test on the exact class. *)
Definition type_not_in_list_tuple (x : pyobj) : bool :=
  negb (bool_decide (type_of x = ty_list) || bool_decide (type_of x = ty_tuple)).

(** Lookup in an instance dictionary, and assignment to it. *)
Fixpoint dict_get (attrs : list (string * pyobj)) (name : string) : option pyobj :=
  match attrs with
  | [] => None
  | (n, v) :: rest => if bool_decide (n = name) then Some v else dict_get rest name
  end.

Fixpoint dict_set (attrs : list (string * pyobj)) (name : string) (v : pyobj)
  : list (string * pyobj) :=
  match attrs with
  | [] => [(name, v)]
  | (n, w) :: rest =>
      if bool_decide (n = name) then (n, v) :: rest else (n, w) :: dict_set rest name v
  end.

(** ** Exceptions and the monad of Python statements *)

(** An f-string: literal text and interpolated objects. *)
Inductive fragment : Type :=
| Lit (s : string)
| Interp (o : pyobj).

Definition fstring : Type := list fragment.

Inductive exn : Type :=
| TypeError (msg : fstring)
| ValueError (msg : fstring)
| AttributeError (msg : fstring)
| ImproperlyConfigured (msg : fstring)
| InvalidVersion (s : string).

Inductive result (A : Type) : Type :=
| Ok (a : A)
| Raise (e : exn).
Arguments Ok {A} a.
Arguments Raise {A} e.

(** A statement run on a mutable object of type [S]. *)
Definition py (S A : Type) : Type := S → result A * S.

Global Instance py_ret {S} : MRet (py S) := λ A a s, (Ok a, s).

Global Instance py_bind {S} : MBind (py S) := λ A B f m s,
  match m s with
  | (Ok a, s') => f a s'
  | (Raise e, s') => (Raise e, s')
  end.

Definition raise {S A} (e : exn) : py S A := λ s, (Raise e, s).
Definition get {S} : py S S := λ s, (Ok s, s).
Definition modify {S} (f : S → S) : py S unit := λ s, (Ok tt, f s).

(** A pure computation that may raise, run as a statement. *)
Definition lift {S A} (r : result A) : py S A := λ s, (r, s).

(** [if cond: raise e] *)
Definition raise_if {S} (cond : bool) (e : exn) : py S unit :=
  if cond then raise e else mret tt.

(** [for x in l: body] *)
Fixpoint for_each {S A} (l : list A) (body : A → py S unit) : py S unit :=
  match l with
  | [] => mret tt
  | x :: rest => body x;; for_each rest body
  end.

(** ** The version library

    [validate] parses version strings with [packaging.version.parse] and
    compares the parsed versions with [<] and [>].  The library is not part
    of this module, so it is taken as an interface: a parser that may reject
    a string (it then raises [InvalidVersion]) and a strict total order on
    parsed versions, which is what the library's comparison of version keys
    is.  [a > b] on versions is [b < a]. *)
Class VersionLib : Type := {
  version : Type;
  version_parse : string → option version;
  version_lt : version → version → bool;
  version_lt_irrefl : ∀ a, version_lt a a = false;
  version_lt_trans : ∀ a b c,
    version_lt a b = true → version_lt b c = true → version_lt a c = true;
  version_lt_total : ∀ a b,
    version_lt a b = true ∨ a = b ∨ version_lt b a = true;
}.

Definition version_gt `{VersionLib} (a b : version) : bool := version_lt b a.

(** [version.parse(s)] as an expression that may raise. *)
Definition parse `{VersionLib} (s : string) : result version :=
  match version_parse s with
  | Some v => Ok v
  | None => Raise (InvalidVersion s)
  end.

(** ** The plugin descriptor *)

(** The class attributes of a [PluginConfig] subclass that [validate] reads.
    [default_settings] is a dict, kept as its items in iteration order. *)
Record PluginConfig : Type := {
  __module__ : string;
  min_version : option string;
  max_version : option string;
  default_settings : list (string * pyobj);
  required_settings : list string;
}.

Section validate.
Context `{VersionLib}.

Definition min_version_message (cls : PluginConfig) (v : string) : fstring :=
  [Lit "Plugin "; Interp (PyStr (__module__ cls));
   Lit " requires NetBox minimum version "; Interp (PyStr v); Lit "."].

Definition max_version_message (cls : PluginConfig) (v : string) : fstring :=
  [Lit "Plugin "; Interp (PyStr (__module__ cls));
   Lit " requires NetBox maximum version "; Interp (PyStr v); Lit "."].

Definition required_setting_message (cls : PluginConfig) (setting : string) : fstring :=
  [Lit "Plugin "; Interp (PyStr (__module__ cls)); Lit " requires '";
   Interp (PyStr setting);
   Lit "' to be present in the PLUGINS_CONFIG section of configuration.py."].

(** Enforce version constraints *)
Definition enforce_version_constraints {S} (cls : PluginConfig) (netbox_version : string)
  : py S unit :=
  current_version ← lift (parse netbox_version);
  match min_version cls with
  | Some v =>
      min_version ← lift (parse v);
      raise_if (version_lt current_version min_version)
               (ImproperlyConfigured (min_version_message cls v))
  | None => mret tt
  end;;
  match max_version cls with
  | Some v =>
      max_version ← lift (parse v);
      raise_if (version_gt current_version max_version)
               (ImproperlyConfigured (max_version_message cls v))
  | None => mret tt
  end.

(** Verify required configuration settings *)
Definition verify_required_settings (cls : PluginConfig)
  : py (gmap string pyobj) unit :=
  for_each (required_settings cls) (λ setting,
    user_config ← get;
    raise_if (bool_decide (user_config !! setting = None))
             (ImproperlyConfigured (required_setting_message cls setting))).

(** Apply default configuration values *)
Definition apply_default_settings (defaults : list (string * pyobj))
  : py (gmap string pyobj) unit :=
  for_each defaults (λ '(setting, value),
    user_config ← get;
    if bool_decide (user_config !! setting = None)
    then modify (λ user_config, <[setting := value]> user_config)
    else mret tt).

(** [PluginConfig.validate(user_config, netbox_version)], run on the
    caller's [user_config]. *)
Definition validate (cls : PluginConfig) (netbox_version : string)
  : py (gmap string pyobj) unit :=
  enforce_version_constraints cls netbox_version;;
  verify_required_settings cls;;
  apply_default_settings (default_settings cls).

End validate.

(** ** Navigation menu links *)

(** [utilities.choices.ButtonColorChoices] is imported, not defined, by the
    module: its default color and the list [ButtonColorChoices.values()] of its
    color names are taken as given. *)
Class ButtonColorChoices : Type := {
  DEFAULT : string;
  values : list string;
}.

(** [color not in ButtonColorChoices.values()]: the values are strings, and
    only a string equals one. *)
Definition color_not_in_values `{ButtonColorChoices} (color : pyobj) : bool :=
  match color with
  | PyStr s => negb (bool_decide (s ∈ values))
  | _ => true
  end.

Section menu.
Context `{ButtonColorChoices}.

(** The attributes the classes of the module declare in their bodies, looked
    up along the bases of [t]. *)
Fixpoint class_attr (t : pytype) (name : string) : option pyobj :=
  match t with
  | ty_class _ base => class_attr base name
  | ty_PluginMenuItem =>
      if bool_decide (name = "permissions") then Some (PySeq ty_list [])
      else if bool_decide (name = "buttons") then Some (PySeq ty_list [])
      else None
  | ty_PluginMenuButton =>
      if bool_decide (name = "color") then Some (PyStr DEFAULT)
      else if bool_decide (name = "permissions") then Some (PySeq ty_list [])
      else None
  | _ => None
  end.

(** [o.__dict__] *)
Definition instance_dict (o : pyobj) : list (string * pyobj) :=
  match o with PyInst _ attrs => attrs | _ => [] end.

(** [o.name]: the instance dictionary first, then the class.  [None] stands
    for AttributeError. *)
Definition getattr (o : pyobj) (name : string) : option pyobj :=
  match dict_get (instance_dict o) name with
  | Some v => Some v
  | None => class_attr (type_of o) name
  end.

(** The elements [for x in o] runs through; [None] where [o] is not
    iterable. *)
Definition iter (o : pyobj) : option (list pyobj) :=
  match o with
  | PySeq _ items => Some items
  | PyStr s => Some (PyStr <$> ((λ c, String c EmptyString) <$> String.list_ascii_of_string s))
  | _ => None
  end.

Definition permissions_message : fstring :=
  [Lit "Permissions must be passed as a tuple or list."].
Definition buttons_message : fstring :=
  [Lit "Buttons must be passed as a tuple or list."].
Definition color_message : fstring :=
  [Lit "Button color must be a choice within ButtonColorChoices."].

(** [PluginMenuItem.__init__(self, link, link_text, permissions=None,
    buttons=None)], run on the instance dictionary of [self]; an omitted
    argument is [PyNone]. *)
Definition PluginMenuItem__init__ (link link_text permissions buttons : pyobj)
  : py (list (string * pyobj)) unit :=
  modify (λ self, dict_set self "link" link);;
  modify (λ self, dict_set self "link_text" link_text);;
  (if negb (is_None permissions) then
     raise_if (type_not_in_list_tuple permissions) (TypeError permissions_message);;
     modify (λ self, dict_set self "permissions" permissions)
   else mret tt);;
  (if negb (is_None buttons) then
     raise_if (type_not_in_list_tuple buttons) (TypeError buttons_message);;
     modify (λ self, dict_set self "buttons" buttons)
   else mret tt).

(** [PluginMenuButton.__init__(self, link, title, icon_class, color=None,
    permissions=None)] *)
Definition PluginMenuButton__init__ (link title icon_class color permissions : pyobj)
  : py (list (string * pyobj)) unit :=
  modify (λ self, dict_set self "link" link);;
  modify (λ self, dict_set self "title" title);;
  modify (λ self, dict_set self "icon_class" icon_class);;
  (if negb (is_None permissions) then
     raise_if (type_not_in_list_tuple permissions) (TypeError permissions_message);;
     modify (λ self, dict_set self "permissions" permissions)
   else mret tt);;
  (if negb (is_None color) then
     raise_if (color_not_in_values color) (ValueError color_message);;
     modify (λ self, dict_set self "color" color)
   else mret tt).

(** The call [cls(args)]: a fresh instance of [cls] is initialised, and the
    caller receives it only if [__init__] returns. *)
Definition construct (cls : pytype) (init : py (list (string * pyobj)) unit)
  : result pyobj :=
  match init [] with
  | (Ok _, self) => Ok (PyInst cls self)
  | (Raise e, _) => Raise e
  end.

(** [PluginMenuItem(link, link_text, permissions, buttons)] *)
Definition PluginMenuItem (link link_text permissions buttons : pyobj) : result pyobj :=
  construct ty_PluginMenuItem (PluginMenuItem__init__ link link_text permissions buttons).

(** [PluginMenuButton(link, title, icon_class, color, permissions)] *)
Definition PluginMenuButton (link title icon_class color permissions : pyobj)
  : result pyobj :=
  construct ty_PluginMenuButton
            (PluginMenuButton__init__ link title icon_class color permissions).

End menu.

(** ** The registry *)

(** [registry['plugins']].  [template_extensions] is a
    [collections.defaultdict(list)]. *)
Record plugins_registry : Type := {
  graphql_schemas : list pyobj;
  menus : list pyobj;
  menu_items : gmap string (list pyobj);
  preferences : gmap string pyobj;
  template_extensions : gmap string (list pyobj);
}.

(** The registry as the module initialises it. *)
Definition initial_registry : plugins_registry :=
  {| graphql_schemas := []; menus := []; menu_items := ∅; preferences := ∅;
     template_extensions := ∅ |}.

Definition set_graphql_schemas (f : list pyobj → list pyobj) (r : plugins_registry) :=
  {| graphql_schemas := f (graphql_schemas r); menus := menus r;
     menu_items := menu_items r; preferences := preferences r;
     template_extensions := template_extensions r |}.

Definition set_menus (f : list pyobj → list pyobj) (r : plugins_registry) :=
  {| graphql_schemas := graphql_schemas r; menus := f (menus r);
     menu_items := menu_items r; preferences := preferences r;
     template_extensions := template_extensions r |}.

Definition set_menu_items (f : gmap string (list pyobj) → gmap string (list pyobj))
    (r : plugins_registry) :=
  {| graphql_schemas := graphql_schemas r; menus := menus r;
     menu_items := f (menu_items r); preferences := preferences r;
     template_extensions := template_extensions r |}.

Definition set_preferences (f : gmap string pyobj → gmap string pyobj)
    (r : plugins_registry) :=
  {| graphql_schemas := graphql_schemas r; menus := menus r;
     menu_items := menu_items r; preferences := f (preferences r);
     template_extensions := template_extensions r |}.

Definition set_template_extensions
    (f : gmap string (list pyobj) → gmap string (list pyobj)) (r : plugins_registry) :=
  {| graphql_schemas := graphql_schemas r; menus := menus r;
     menu_items := menu_items r; preferences := preferences r;
     template_extensions := f (template_extensions r) |}.

(** [d[key].append(x)] on a [defaultdict(list)]: a missing key is first bound
    to a new empty list. *)
Definition defaultdict_append (key : string) (x : pyobj) (d : gmap string (list pyobj))
  : gmap string (list pyobj) :=
  <[key := default [] (d !! key) ++ [x]]> d.

(** ** Registrars *)

Definition passed_as_instance_message (template_extension : pyobj) : fstring :=
  [Lit "PluginTemplateExtension class "; Interp template_extension;
   Lit " was passed as an instance!"].

Definition not_a_subclass_message (template_extension : pyobj) : fstring :=
  [Interp template_extension;
   Lit " is not a subclass of extras.plugins.PluginTemplateExtension!"].

Definition no_valid_model_message (template_extension : pyobj) : fstring :=
  [Lit "PluginTemplateExtension class "; Interp template_extension;
   Lit " does not define a valid model!"].

(** One pass of the loop of [register_template_extensions]: the three checks,
    then the append. *)
Definition register_one (template_extension : pyobj) : py plugins_registry unit :=
  raise_if (negb (inspect_isclass template_extension))
           (TypeError (passed_as_instance_message template_extension));;
  raise_if (negb (class_issubclass template_extension ty_PluginTemplateExtension))
           (TypeError (not_a_subclass_message template_extension));;
  match class_model template_extension with
  | None => raise (TypeError (no_valid_model_message template_extension))
  | Some model =>
      modify (set_template_extensions (defaultdict_append model template_extension))
  end.

(** [register_template_extensions(class_list)]: each class is checked and
    appended in the same pass of the loop. *)
Definition register_template_extensions (class_list : list pyobj)
  : py plugins_registry unit :=
  for_each class_list register_one.

Definition not_a_menu_message (menu : pyobj) : fstring :=
  [Interp menu; Lit " must be an instance of extras.plugins.PluginMenu"].

(** [register_menu(menu)] *)
Definition register_menu (menu : pyobj) : py plugins_registry unit :=
  raise_if (negb (isinstance menu ty_PluginMenu)) (TypeError (not_a_menu_message menu));;
  modify (set_menus (λ l, l ++ [menu])).

Definition not_a_menu_item_message (menu_link : pyobj) : fstring :=
  [Interp menu_link; Lit " must be an instance of extras.plugins.PluginMenuItem"].

Definition not_a_menu_button_message (button : pyobj) : fstring :=
  [Interp button; Lit " must be an instance of extras.plugins.PluginMenuButton"].

Definition not_iterable_message (o : pyobj) : fstring :=
  [Interp o; Lit " object is not iterable"].

Definition no_attribute_message (o : pyobj) (name : string) : fstring :=
  [Interp o; Lit " object has no attribute '"; Lit name; Lit "'"].

Section registrars.
Context `{ButtonColorChoices}.

(** [for button in menu_link.buttons: ...], the inner loop of
    [register_menu_items]. *)
Definition check_buttons (menu_link : pyobj) : py plugins_registry unit :=
  match getattr menu_link "buttons" with
  | None => raise (AttributeError (no_attribute_message menu_link "buttons"))
  | Some buttons =>
      match iter buttons with
      | None => raise (TypeError (not_iterable_message buttons))
      | Some items =>
          for_each items (λ button,
            raise_if (negb (isinstance button ty_PluginMenuButton))
                     (TypeError (not_a_menu_button_message button)))
      end
  end.

(** [register_menu_items(section_name, class_list)]: the whole list is
    checked, then stored. *)
Definition register_menu_items (section_name : string) (class_list : list pyobj)
  : py plugins_registry unit :=
  for_each class_list (λ menu_link,
    raise_if (negb (isinstance menu_link ty_PluginMenuItem))
             (TypeError (not_a_menu_item_message menu_link));;
    check_buttons menu_link);;
  modify (set_menu_items (λ d, <[section_name := class_list]> d)).

End registrars.

(** [register_graphql_schema(graphql_schema)] *)
Definition register_graphql_schema (graphql_schema : pyobj) : py plugins_registry unit :=
  modify (set_graphql_schemas (λ l, l ++ [graphql_schema])).

(** [register_user_preferences(plugin_name, preferences)] *)
Definition register_user_preferences (plugin_name : string) (prefs : pyobj)
  : py plugins_registry unit :=
  modify (set_preferences (λ d, <[plugin_name := prefs]> d)).

(** ** Truth values, iteration and dotted names *)

(** [bool(o)].  An instance of the classes of this module is true: none of
    them defines [__bool__] or [__len__]. *)
Definition truthy (o : pyobj) : bool :=
  match o with
  | PyNone => false
  | PyBool b => b
  | PyInt z => negb (z =? 0)%Z
  | PyStr s => match s with EmptyString => false | _ => true end
  | PySeq _ items => match items with [] => false | _ => true end
  | PyClass _ _ => true
  | PyInst _ _ => true
  end.

(** [for x in o: ...], the loop being given the elements of [o]. *)
Definition for_in {S} (o : pyobj) (loop : list pyobj → py S unit) : py S unit :=
  match iter o with
  | Some items => loop items
  | None => raise (TypeError (not_iterable_message o))
  end.

(** What follows the last dot of [s]; [None] when [s] has no dot. *)
Fixpoint after_last_dot (s : string) : option string :=
  match s with
  | EmptyString => None
  | String c rest =>
      match after_last_dot rest with
      | Some tail => Some tail
      | None => if bool_decide (c = "."%char) then Some rest else None
      end
  end.

(** [s.rsplit('.', 1)[-1]] *)
Definition rsplit_last (s : string) : string := default s (after_last_dot s).

(** ** Template content injection *)

(** [{**a, **b}]: where both have a key, the value of [b] stands. *)
Definition dict_merge (a b : gmap string pyobj) : gmap string pyobj := b ∪ a.

Definition extra_context_message : fstring :=
  [Lit "extra_context must be a dictionary"].

Section render.
(** [get_template(template_name).render(context)] belongs to Django: it is
    taken as given, [R] being whatever it produces, its own failures
    included. *)
Context {R : Type} (get_template_render : string → gmap string pyobj → R).

(** [PluginTemplateExtension.render(self, template_name, extra_context)],
    with [self.context] the dict given to [__init__].  [extra_context] is an
    object that is not a dict ([PyNone] when omitted) or a dict. *)
Definition render (self_context : gmap string pyobj) (template_name : string)
    (extra_context : pyobj + gmap string pyobj) : result R :=
  match
    match extra_context with
    | inl PyNone => Ok ∅
    | inr d => Ok d
    | inl _ => Raise (TypeError extra_context_message)
    end
  with
  | Ok extra_context =>
      Ok (get_template_render template_name (dict_merge self_context extra_context))
  | Raise e => Raise e
  end.

End render.

(** ** Navigation menus *)

Definition cannot_unpack_message (o : pyobj) : fstring :=
  [Lit "cannot unpack non-iterable "; Interp o; Lit " object"].
Definition not_enough_values_message (got : nat) : fstring :=
  [Lit "not enough values to unpack (expected 2, got "; Interp (PyInt (Z.of_nat got));
   Lit ")"].
Definition too_many_values_message : fstring :=
  [Lit "too many values to unpack (expected 2)"].

(** [label, items = o] *)
Definition unpack_pair (o : pyobj) : result (pyobj * pyobj) :=
  match iter o with
  | None => Raise (TypeError (cannot_unpack_message o))
  | Some [label; items] => Ok (label, items)
  | Some (_ :: _ :: _ :: _) => Raise (ValueError too_many_values_message)
  | Some few => Raise (ValueError (not_enough_values_message (length few)))
  end.

Section plugin_menu.
(** [netbox.navigation.MenuGroup] is imported, not defined, by the module:
    the call [MenuGroup(label, items)] is taken as given. *)
Context (MenuGroup : pyobj → pyobj → pyobj).

(** [[MenuGroup(label, items) for label, items in groups]] *)
Fixpoint menu_groups (groups : list pyobj) : result (list pyobj) :=
  match groups with
  | [] => Ok []
  | group :: rest =>
      match unpack_pair group with
      | Raise e => Raise e
      | Ok (label, items) =>
          match menu_groups rest with
          | Raise e => Raise e
          | Ok built => Ok (MenuGroup label items :: built)
          end
      end
  end.

(** [PluginMenu.__init__(self, label, groups, icon_class=None)] *)
Definition PluginMenu__init__ (label groups icon_class : pyobj)
  : py (list (string * pyobj)) unit :=
  modify (λ self, dict_set self "label" label);;
  for_in groups (λ items,
    built ← lift (menu_groups items);
    modify (λ self, dict_set self "groups" (PySeq ty_list built)));;
  if negb (is_None icon_class)
  then modify (λ self, dict_set self "icon_class" icon_class)
  else mret tt.

(** [PluginMenu(label, groups, icon_class)] *)
Definition PluginMenu (label groups icon_class : pyobj) : result pyobj :=
  construct ty_PluginMenu (PluginMenu__init__ label groups icon_class).

End plugin_menu.

(** [menu.icon_class] for an instance of PluginMenu: the attribute set by
    [__init__], or else the one of the class. *)
Definition menu_icon_class (menu : pyobj) : pyobj :=
  default (PyStr "mdi mdi-puzzle") (dict_get (instance_dict menu) "icon_class").

(** ** The plugin at application start *)

(** An instance of a PluginConfig subclass: its name and display name, the
    module of its class and the paths of its integrated components. *)
Record PluginApp : Type := {
  app_module : string;
  app_name : string;
  app_verbose_name : string;
  path_search_indexes : string;
  path_graphql_schema : string;
  path_menu : string;
  path_menu_items : string;
  path_template_extensions : string;
  path_user_preferences : string;
}.

(** A plugin that keeps the default integration paths of PluginConfig. *)
Definition default_paths (module name verbose_name : string) : PluginApp :=
  {| app_module := module;
     app_name := name;
     app_verbose_name := verbose_name;
     path_search_indexes := "search.indexes";
     path_graphql_schema := "graphql.schema";
     path_menu := "navigation.menu";
     path_menu_items := "navigation.menu_items";
     path_template_extensions := "template_content.template_extensions";
     path_user_preferences := "preferences.preferences" |}.

(** [f"{self.__module__}.{path}"] *)
Definition dotted (self : PluginApp) (path : string) : string :=
  (app_module self ++ "." ++ path)%string.

Section ready.
(** [extras.plugins.utils.import_object] and [netbox.search.register_search]
    are imported, not defined, by the module.  [import_object] is taken as a
    lookup that gives the object at a dotted path, [PyNone] where there is
    none, or raises; [register_search()(idx)] as a statement on the search
    registry, of some type [W]. *)
Context {W : Type}.
Context (import_object : string → result pyobj).
Context (register_search : pyobj → py W unit).
Context `{ButtonColorChoices}.

(** A statement on the search registry, and one on the plugin registry, as
    statements on both. *)
Definition on_search {A} (m : py W A) : py (W * plugins_registry) A :=
  λ s, let '(a, w) := m s.1 in (a, (w, s.2)).

Definition on_plugins {A} (m : py plugins_registry A) : py (W * plugins_registry) A :=
  λ s, let '(a, r) := m s.2 in (a, (s.1, r)).

(** [PluginConfig.ready(self)] *)
Definition ready (self : PluginApp) : py (W * plugins_registry) unit :=
  let plugin_name := rsplit_last (app_name self) in
  search_indexes ← lift (import_object (dotted self (path_search_indexes self)));
  (if truthy search_indexes
   then for_in search_indexes (λ items,
          for_each items (λ idx, on_search (register_search idx)))
   else mret tt);;
  template_extensions ← lift (import_object (dotted self (path_template_extensions self)));
  (if negb (is_None template_extensions)
   then for_in template_extensions (λ class_list,
          on_plugins (register_template_extensions class_list))
   else mret tt);;
  menu ← lift (import_object (dotted self (path_menu self)));
  (if truthy menu then on_plugins (register_menu menu) else mret tt);;
  menu_items ← lift (import_object (dotted self (path_menu_items self)));
  (if truthy menu_items
   then for_in menu_items (λ class_list,
          on_plugins (register_menu_items (app_verbose_name self) class_list))
   else mret tt);;
  graphql_schema ← lift (import_object (dotted self (path_graphql_schema self)));
  (if negb (is_None graphql_schema)
   then on_plugins (register_graphql_schema graphql_schema)
   else mret tt);;
  user_preferences ← lift (import_object (dotted self (path_user_preferences self)));
  (if negb (is_None user_preferences)
   then on_plugins (register_user_preferences plugin_name user_preferences)
   else mret tt).

End ready.

(** ** Predicates of the statements *)

(** The first required setting that [user_config] lacks. *)
Definition first_missing (required : list string) (user_config : gmap string pyobj)
  : option string :=
  List.find (λ setting, bool_decide (user_config !! setting = None)) required.

(** What [register_menu_items] accepts as an element of its list: a
    PluginMenuItem whose buttons are all PluginMenuButtons. *)
Definition valid_menu_link `{ButtonColorChoices} (menu_link : pyobj) : bool :=
  isinstance menu_link ty_PluginMenuItem &&
  match getattr menu_link "buttons" ≫= iter with
  | Some items => forallb (λ button, isinstance button ty_PluginMenuButton) items
  | None => false
  end.

(** What [register_template_extensions] accepts as an element of its list:
    a subclass of PluginTemplateExtension whose model is set. *)
Definition valid_template_extension (o : pyobj) : bool :=
  inspect_isclass o &&
  class_issubclass o ty_PluginTemplateExtension &&
  bool_decide (class_model o ≠ None).

(** What the constructors accept as [permissions] or [buttons]: None, a
    list or a tuple. *)
Definition list_or_tuple_or_None (x : pyobj) : bool :=
  is_None x || negb (type_not_in_list_tuple x).

(** [t] is a subclass of [u] other than [u]. *)
Definition proper_subclass (t u : pytype) : Prop :=
  t ≠ u ∧ issubclass t u = true.

(** The version check of [validate] passes: the host version parses, and
    each bound that is set parses and is not exceeded. *)
Definition version_accepted `{VersionLib} (cls : PluginConfig) (netbox_version : string)
  : Prop :=
  ∃ current,
    version_parse netbox_version = Some current ∧
    (∀ lo, min_version cls = Some lo →
       ∃ minimum, version_parse lo = Some minimum ∧ version_lt current minimum = false) ∧
    (∀ hi, max_version cls = Some hi →
       ∃ maximum, version_parse hi = Some maximum ∧ version_gt current maximum = false).

(** Every class the registry holds is a subclass of PluginTemplateExtension
    with a model, filed under that model. *)
Definition classes_filed (r : plugins_registry) : Prop :=
  ∀ model classes c,
    template_extensions r !! model = Some classes → c ∈ classes →
    valid_template_extension c = true ∧ class_model c = Some model.

(** [s] has a dot in it. *)
Fixpoint has_dot (s : string) : bool :=
  match s with
  | EmptyString => false
  | String c rest => bool_decide (c = "."%char) || has_dot rest
  end.

(** ** Instances of the interfaces, for running the definitions *)

(** Release versions [N(.N)*], the version strings NetBox itself carries:
    a version is its tuple of release numbers without trailing zeros, and
    tuples compare lexicographically. *)
Module ReleaseVersion.

Definition digit (c : ascii) : option N :=
  let n := N_of_ascii c in
  if ((48 <=? n) && (n <=? 57))%N then Some (n - 48)%N else None.

(** [cur] is the number being read, [acc] the numbers read, last first. *)
Fixpoint parse_release (s : string) (cur : option N) (acc : list N) : option (list N) :=
  match s with
  | EmptyString =>
      match cur with
      | Some n => Some (n :: acc)
      | None => None
      end
  | String c rest =>
      if bool_decide (c = "."%char) then
        match cur with
        | Some n => parse_release rest None (n :: acc)
        | None => None
        end
      else
        match digit c with
        | Some d => parse_release rest (Some (10 * default 0 cur + d)%N) acc
        | None => None
        end
  end.

Fixpoint drop_zeros (l : list N) : list N :=
  match l with
  | 0%N :: rest => drop_zeros rest
  | _ => l
  end.

Definition release_parse (s : string) : option (list N) :=
  (λ reversed, rev (drop_zeros reversed)) <$> parse_release s None [].

Fixpoint release_lt (a b : list N) : bool :=
  match a, b with
  | _, [] => false
  | [], _ :: _ => true
  | x :: a', y :: b' =>
      if (x <? y)%N then true
      else if (x =? y)%N then release_lt a' b'
      else false
  end.

Definition lib : VersionLib.
Proof.
  refine {| version := list N;
            version_parse := release_parse;
            version_lt := release_lt |}.
  - intros a. induction a as [|x a IH]; simpl; [done|].
    rewrite N.ltb_irrefl, N.eqb_refl. exact IH.
  - intros a. induction a as [|x a IH]; intros [|y b] [|z c]; simpl; try done.
    destruct (N.ltb_spec x y), (N.eqb_spec x y), (N.ltb_spec y z), (N.eqb_spec y z),
      (N.ltb_spec x z), (N.eqb_spec x z); try done; try lia.
    apply IH.
  - intros a. induction a as [|x a IH]; intros [|y b]; simpl; auto.
    destruct (N.ltb_spec x y), (N.eqb_spec x y), (N.ltb_spec y x), (N.eqb_spec y x);
      auto; try lia.
    subst y. destruct (IH b) as [?|[->|?]]; auto.
Defined.

End ReleaseVersion.

(** A palette with three colors. *)
Definition sample_colors : ButtonColorChoices :=
  {| DEFAULT := "outline-dark"; values := ["outline-dark"; "blue"; "red"] |}.

(** The plugin of the specification's example scenario. *)
Definition acme : PluginConfig :=
  {| __module__ := "acme";
     min_version := Some "3.5";
     max_version := Some "4.0";
     default_settings := [("timeout", PyInt 30)];
     required_settings := ["api_key"] |}.

(** A button and two menu items, as their constructors build them. *)
Definition add_button : pyobj :=
  PyInst ty_PluginMenuButton
    [("link", PyStr "plugins:acme:add"); ("title", PyStr "Add");
     ("icon_class", PyStr "mdi mdi-plus"); ("color", PyStr "blue")].

Definition list_item : pyobj :=
  PyInst ty_PluginMenuItem
    [("link", PyStr "plugins:acme:list"); ("link_text", PyStr "Things");
     ("buttons", PySeq ty_list [add_button])].

Definition about_item : pyobj :=
  PyInst ty_PluginMenuItem
    [("link", PyStr "plugins:acme:about"); ("link_text", PyStr "About")].

(** Two plugins' classes for dcim.site, and one for dcim.device. *)
Definition site_panel : pyobj :=
  PyClass (ty_class "SitePanel" ty_PluginTemplateExtension) (Some "dcim.site").
Definition site_buttons : pyobj :=
  PyClass (ty_class "SiteButtons" ty_PluginTemplateExtension) (Some "dcim.site").
Definition device_panel : pyobj :=
  PyClass (ty_class "DevicePanel" ty_PluginTemplateExtension) (Some "dcim.device").

(** A class that leaves [model] at the inherited None. *)
Definition unbound_panel : pyobj :=
  PyClass (ty_class "UnboundPanel" ty_PluginTemplateExtension) None.

(** A list subclass holding one permission. *)
Definition permission_list : pyobj :=
  PySeq (ty_class "PermissionList" ty_list) [PyStr "acme.view_thing"].

(** The plugin acme as an application, its class in the module netbox_acme,
    and what its module may provide: [provided] lists the objects by path. *)
Definition acme_app : PluginApp :=
  default_paths "netbox_acme" "company.netbox_acme" "Acme".

Definition provides (provided : list (string * pyobj)) : string → result pyobj :=
  λ path, Ok (default PyNone (dict_get provided path)).

(** A search registry that records the indexes it is given. *)
Definition record_index (idx : pyobj) : py (list pyobj) unit :=
  modify (λ held, held ++ [idx]).

(** * Properties *)

(** ** The instances at work *)

Example release_parse_3_7_0 : ReleaseVersion.release_parse "3.7.0" = Some [3; 7]%N.
Proof. reflexivity. Qed.

Example release_parse_rejects : ReleaseVersion.release_parse "3..7" = None.
Proof. reflexivity. Qed.

Example acme_validate_ok :
  validate (H := ReleaseVersion.lib) acme "3.7.0" {["api_key" := PyStr "xyz"]}
  = (Ok tt, {["api_key" := PyStr "xyz"; "timeout" := PyInt 30]}).
Proof. vm_compute. reflexivity. Qed.


(** ** Running statements *)

Lemma bind_Ok {S A B} (m : py S A) (f : A → py S B) s a s' :
  m s = (Ok a, s') → (m ≫= f) s = f a s'.
Proof. intros Hm. unfold mbind, py_bind. by rewrite Hm. Qed.

Lemma bind_Raise {S A B} (m : py S A) (f : A → py S B) s e s' :
  m s = (Raise e, s') → (m ≫= f) s = (Raise e, s').
Proof. intros Hm. unfold mbind, py_bind. by rewrite Hm. Qed.

Ltac py_unfold :=
  unfold mbind, py_bind, mret, py_ret, raise_if, raise, lift, get, modify in *.

(** ** The three steps of [validate] *)

(** The version check never touches the configuration. *)
Lemma enforce_version_constraints_reads `{VersionLib} {S} cls netbox_version (s : S) :
  (enforce_version_constraints cls netbox_version s).2 = s.
Proof.
  unfold enforce_version_constraints, parse. py_unfold.
  destruct (version_parse netbox_version) as [cur|]; [|done].
  destruct (min_version cls) as [lo|]; destruct (max_version cls) as [hi|];
    repeat first [ done | match goal with |- context [version_parse ?x] =>
      destruct (version_parse x) end | match goal with |- context [version_lt ?a ?b] =>
      destruct (version_lt a b) end | progress unfold version_gt ].
Qed.

Lemma required_loop_spec (msg : string → fstring) required (user_config : gmap string pyobj) :
  for_each required (λ setting,
    user_config ← get;
    raise_if (bool_decide (user_config !! setting = None))
             (ImproperlyConfigured (msg setting))) user_config
  = match first_missing required user_config with
    | Some setting => (Raise (ImproperlyConfigured (msg setting)), user_config)
    | None => (Ok tt, user_config)
    end.
Proof.
  induction required as [|k required IH]; [done|].
  unfold first_missing in *. simpl. py_unfold.
  destruct (bool_decide (user_config !! k = None)); [done|exact IH].
Qed.

Lemma verify_required_settings_spec cls (user_config : gmap string pyobj) :
  verify_required_settings cls user_config
  = match first_missing (required_settings cls) user_config with
    | Some setting =>
        (Raise (ImproperlyConfigured (required_setting_message cls setting)), user_config)
    | None => (Ok tt, user_config)
    end.
Proof. apply required_loop_spec. Qed.

Lemma first_missing_Some required (user_config : gmap string pyobj) setting :
  first_missing required user_config = Some setting →
  ∃ before after,
    required = before ++ setting :: after ∧
    (∀ k, k ∈ before → is_Some (user_config !! k)) ∧
    user_config !! setting = None.
Proof.
  unfold first_missing. induction required as [|k required IH]; simpl; [done|].
  case_bool_decide as Hk.
  - intros [= <-]. exists [], required. split_and!; [done| |done].
    intros k' Hk'. by apply elem_of_nil in Hk'.
  - intros Hfind. destruct (IH Hfind) as (before & after & -> & Hbefore & Hmiss).
    exists (k :: before), after. split_and!; [done| |done].
    intros k' [->|Hk']%elem_of_cons; [|by apply Hbefore].
    by apply not_eq_None_Some.
Qed.

Lemma first_missing_None required (user_config : gmap string pyobj) :
  first_missing required user_config = None →
  ∀ k, k ∈ required → is_Some (user_config !! k).
Proof.
  unfold first_missing. intros Hfind k Hk.
  apply list_elem_of_In in Hk.
  pose proof (List.find_none _ _ Hfind k Hk) as Hb. simpl in Hb.
  apply bool_decide_eq_false in Hb. by apply not_eq_None_Some.
Qed.

(** The defaults step never raises, and it is a left-biased union with the
    defaults, of which the first entry for a key counts. *)
Lemma apply_default_settings_spec defaults (user_config : gmap string pyobj) :
  apply_default_settings defaults user_config
  = (Ok tt, user_config ∪ list_to_map defaults).
Proof.
  unfold apply_default_settings. revert user_config.
  induction defaults as [|[k v] defaults IH]; intros user_config; simpl.
  - by rewrite (right_id_L ∅ (∪)).
  - py_unfold. case_bool_decide as Hk; simpl.
    + rewrite IH. f_equal. rewrite <- insert_union_l. by apply insert_union_r.
    + rewrite IH. f_equal. apply map_eq. intros i.
      rewrite !lookup_union. destruct (decide (k = i)) as [->|Hne].
      * rewrite lookup_insert_eq. destruct (user_config !! i); [|done].
        by destruct (list_to_map defaults !! i).
      * by rewrite lookup_insert_ne.
Qed.

(** ** Version bounds in the wrong order *)

(** C2: when both bounds are set and the minimum is above the maximum,
    [validate] raises ImproperlyConfigured for every host version: the
    minimum-version message when the host version is below the minimum, and
    the maximum-version message otherwise.  The minimum is compared first and
    the bounds are never compared with each other.  The configuration is not
    touched. *)
Theorem validate_inconsistent_bounds `{VersionLib} cls netbox_version
    (user_config : gmap string pyobj) lo hi minimum maximum current :
  min_version cls = Some lo →
  max_version cls = Some hi →
  version_parse lo = Some minimum →
  version_parse hi = Some maximum →
  version_gt minimum maximum = true →
  version_parse netbox_version = Some current →
  validate cls netbox_version user_config
  = (Raise (ImproperlyConfigured
              (if version_lt current minimum
               then min_version_message cls lo
               else max_version_message cls hi)),
     user_config).
Proof.
  intros Hlo Hhi Hmin Hmax Hbounds Hcur.
  unfold validate. apply bind_Raise.
  unfold enforce_version_constraints, parse. py_unfold.
  rewrite Hcur, Hlo, Hmin, Hhi, Hmax. unfold version_gt in *.
  destruct (version_lt current minimum) eqn:Hbelow; [done|].
  assert (version_lt maximum current = true) as ->; [|done].
  destruct (version_lt_total current minimum) as [Hlt|[->|Hlt]].
  - congruence.
  - done.
  - by apply version_lt_trans with minimum.
Qed.

(** Minimum 4.0 and maximum 3.5: the host 3.7.0 is reported as too old. *)
Lemma validate_inconsistent_bounds_witness :
  validate (H := ReleaseVersion.lib)
    {| __module__ := "acme"; min_version := Some "4.0"; max_version := Some "3.5";
       default_settings := []; required_settings := [] |} "3.7.0" ∅
  = (Raise (ImproperlyConfigured
       [Lit "Plugin "; Interp (PyStr "acme"); Lit " requires NetBox minimum version ";
        Interp (PyStr "4.0"); Lit "."]), ∅).
Proof.
  exact (validate_inconsistent_bounds (H := ReleaseVersion.lib)
           {| __module__ := "acme"; min_version := Some "4.0"; max_version := Some "3.5";
              default_settings := []; required_settings := [] |}
           "3.7.0" ∅ "4.0" "3.5" [4%N] [3%N; 5%N] [3%N; 7%N]
           eq_refl eq_refl eq_refl eq_refl eq_refl eq_refl).
Defined.

(** ** Missing required settings *)

(** C3: when the version check passes and [user_config] lacks a required
    setting, [validate] raises ImproperlyConfigured and leaves [user_config]
    as it was, no default applied.  The message interpolates the first
    required setting, in the order of [required_settings], that is missing;
    it is the given one whenever that is the only one missing. *)
Theorem validate_missing_required_setting `{VersionLib} cls netbox_version
    (user_config : gmap string pyobj) setting :
  enforce_version_constraints cls netbox_version user_config = (Ok tt, user_config) →
  setting ∈ required_settings cls →
  user_config !! setting = None →
  ∃ before missing after,
    required_settings cls = before ++ missing :: after ∧
    (∀ k, k ∈ before → is_Some (user_config !! k)) ∧
    user_config !! missing = None ∧
    validate cls netbox_version user_config
    = (Raise (ImproperlyConfigured (required_setting_message cls missing)), user_config) ∧
    Interp (PyStr missing) ∈ required_setting_message cls missing ∧
    ((∀ k, k ∈ required_settings cls → user_config !! k = None → k = setting) →
     missing = setting).
Proof.
  intros Hversion Hreq Hnone.
  destruct (first_missing (required_settings cls) user_config) as [missing|] eqn:Hfirst.
  - destruct (first_missing_Some _ _ _ Hfirst) as (before & after & Heq & Hbefore & Hmiss).
    exists before, missing, after. split_and!; try done.
    + unfold validate. rewrite (bind_Ok _ _ _ _ _ Hversion).
      apply bind_Raise. by rewrite verify_required_settings_spec, Hfirst.
    + unfold required_setting_message. set_solver.
    + intros Honly. apply Honly; [|done]. rewrite Heq. set_solver.
  - destruct (first_missing_None _ _ Hfirst setting Hreq) as [v Hv]. congruence.
Qed.

(** The example scenario: [validate({}, '3.7.0')] on the plugin acme. *)
Lemma validate_missing_required_setting_witness :
  ∃ before missing after,
    required_settings acme = before ++ missing :: after ∧
    (∀ k, k ∈ before → is_Some ((∅ : gmap string pyobj) !! k)) ∧
    (∅ : gmap string pyobj) !! missing = None ∧
    validate (H := ReleaseVersion.lib) acme "3.7.0" ∅
    = (Raise (ImproperlyConfigured (required_setting_message acme missing)), ∅) ∧
    Interp (PyStr missing) ∈ required_setting_message acme missing ∧
    ((∀ k, k ∈ required_settings acme → (∅ : gmap string pyobj) !! k = None
           → k = "api_key") →
     missing = "api_key").
Proof.
  apply (validate_missing_required_setting (H := ReleaseVersion.lib) acme "3.7.0" ∅ "api_key").
  - reflexivity.
  - simpl. apply list_elem_of_here.
  - reflexivity.
Defined.

(** ** Applying the defaults *)

(** C5: after a run of [validate] that returns, every key [user_config] had
    still has the value it had, a key of [default_settings] included; and
    whatever else the configuration now holds is an entry of
    [default_settings] for a key that was absent. *)
Theorem validate_keeps_existing_values `{VersionLib} cls netbox_version
    (user_config user_config' : gmap string pyobj) :
  validate cls netbox_version user_config = (Ok tt, user_config') →
  (∀ k v, user_config !! k = Some v → user_config' !! k = Some v) ∧
  (∀ k v, user_config' !! k = Some v →
     user_config !! k = Some v ∨
     (user_config !! k = None ∧ (k, v) ∈ default_settings cls)).
Proof.
  unfold validate. py_unfold. intros Hrun.
  pose proof (enforce_version_constraints_reads cls netbox_version user_config) as Hv.
  destruct (enforce_version_constraints cls netbox_version user_config)
    as [[[]|e] s1]; simpl in Hv; subst s1; [|done].
  rewrite verify_required_settings_spec in Hrun.
  destruct (first_missing (required_settings cls) user_config); [done|].
  rewrite apply_default_settings_spec in Hrun. injection Hrun as <-.
  split.
  - intros k v Hk. by apply lookup_union_Some_l.
  - intros k v Hk. rewrite lookup_union in Hk.
    destruct (user_config !! k) as [w|] eqn:Hw.
    + left. rewrite union_Some_l in Hk. congruence.
    + right. split; [done|]. rewrite (left_id_L None union) in Hk.
      by apply elem_of_list_to_map_2.
Qed.

(** An explicit timeout of 5 survives the default of 30, while the default
    number of retries is filled in. *)
Lemma validate_keeps_existing_values_witness :
  let cls :=
    {| __module__ := "acme"; min_version := Some "3.5"; max_version := None;
       default_settings := [("timeout", PyInt 30); ("retries", PyInt 3)];
       required_settings := ["api_key"] |} in
  let user_config : gmap string pyobj :=
    {["api_key" := PyStr "xyz"; "timeout" := PyInt 5]} in
  let user_config' : gmap string pyobj :=
    {["api_key" := PyStr "xyz"; "timeout" := PyInt 5; "retries" := PyInt 3]} in
  validate (H := ReleaseVersion.lib) cls "3.7.0" user_config = (Ok tt, user_config') ∧
  (∀ k v, user_config !! k = Some v → user_config' !! k = Some v) ∧
  (∀ k v, user_config' !! k = Some v →
     user_config !! k = Some v ∨
     (user_config !! k = None ∧ (k, v) ∈ default_settings cls)).
Proof.
  assert (validate (H := ReleaseVersion.lib)
            {| __module__ := "acme"; min_version := Some "3.5"; max_version := None;
               default_settings := [("timeout", PyInt 30); ("retries", PyInt 3)];
               required_settings := ["api_key"] |} "3.7.0"
            {["api_key" := PyStr "xyz"; "timeout" := PyInt 5]}
          = (Ok tt, {["api_key" := PyStr "xyz"; "timeout" := PyInt 5;
                      "retries" := PyInt 3]})) as Hrun
    by (vm_compute; reflexivity).
  split; [exact Hrun|].
  exact (validate_keeps_existing_values (H := ReleaseVersion.lib) _ _ _ _ Hrun).
Defined.

(** C9: the defaults step is idempotent, running it twice leaves the
    configuration that running it once leaves; and for a dict of defaults
    (no key twice) the configuration it leaves is the same whatever the order
    in which the entries are run through. *)
Theorem apply_default_settings_idempotent :
  (∀ defaults (user_config : gmap string pyobj),
     (apply_default_settings defaults;; apply_default_settings defaults) user_config
     = apply_default_settings defaults user_config) ∧
  (∀ defaults defaults' (user_config : gmap string pyobj),
     NoDup defaults.*1 →
     defaults ≡ₚ defaults' →
     apply_default_settings defaults' user_config
     = apply_default_settings defaults user_config).
Proof.
  split.
  - intros defaults user_config.
    rewrite (bind_Ok _ _ _ _ _ (apply_default_settings_spec defaults user_config)).
    rewrite !apply_default_settings_spec. f_equal.
    rewrite <- (assoc_L (∪)). by rewrite (idemp_L (∪)).
  - intros defaults defaults' user_config Hdup Hperm.
    rewrite !apply_default_settings_spec. f_equal. f_equal.
    symmetry. by apply list_to_map_proper.
Qed.

(** Two defaults taken in either order, over a configuration that sets one
    of them. *)
Lemma apply_default_settings_idempotent_witness :
  let defaults := [("timeout", PyInt 30); ("verify", PyBool true)] in
  let user_config : gmap string pyobj := {["verify" := PyBool false]} in
  (apply_default_settings defaults;; apply_default_settings defaults) user_config
  = apply_default_settings defaults user_config ∧
  apply_default_settings (reverse defaults) user_config
  = apply_default_settings defaults user_config.
Proof.
  split.
  - apply (proj1 apply_default_settings_idempotent).
  - apply (proj2 apply_default_settings_idempotent).
    + apply (bool_decide_unpack _). vm_compute. exact I.
    + simpl. apply Permutation_swap.
Defined.

(** ** Loops that only check *)

(** A loop whose body either passes or raises TypeError, without writing,
    passes when every element does and raises TypeError otherwise. *)
Lemma for_each_check {S A} (ok : A → bool) (body : A → py S unit) l s :
  (∀ x s0, if ok x then body x s0 = (Ok tt, s0)
           else ∃ msg, body x s0 = (Raise (TypeError msg), s0)) →
  if forallb ok l then for_each l body s = (Ok tt, s)
  else ∃ msg, for_each l body s = (Raise (TypeError msg), s).
Proof.
  intros Hbody. induction l as [|x l IH]; simpl; [done|].
  specialize (Hbody x s). destruct (ok x); simpl.
  - rewrite (bind_Ok _ _ _ _ _ Hbody). exact IH.
  - destruct Hbody as [msg Hmsg]. exists msg. by apply bind_Raise.
Qed.

(** ** Menu items *)

(** Every subclass of PluginMenuItem has the class attribute [buttons]. *)
Lemma class_attr_buttons `{ButtonColorChoices} t :
  issubclass t ty_PluginMenuItem = true → is_Some (class_attr t "buttons").
Proof.
  induction t as [| | | | | | | | | | | |name base IH]; intros Hsub;
    try (vm_compute in Hsub; discriminate).
  - simpl. by eexists.
  - simpl. apply IH. unfold issubclass in *.
    apply bool_decide_eq_true in Hsub. apply bool_decide_eq_true.
    simpl in Hsub. by apply elem_of_cons in Hsub as [?|?].
Qed.

Lemma getattr_buttons `{ButtonColorChoices} o :
  isinstance o ty_PluginMenuItem = true → is_Some (getattr o "buttons").
Proof.
  intros Hinst. unfold getattr.
  destruct (dict_get (instance_dict o) "buttons"); [by eexists|].
  by apply class_attr_buttons.
Qed.

Lemma menu_link_check `{ButtonColorChoices} menu_link (r : plugins_registry) :
  if valid_menu_link menu_link
  then (raise_if (negb (isinstance menu_link ty_PluginMenuItem))
                 (TypeError (not_a_menu_item_message menu_link));;
        check_buttons menu_link) r = (Ok tt, r)
  else ∃ msg,
       (raise_if (negb (isinstance menu_link ty_PluginMenuItem))
                 (TypeError (not_a_menu_item_message menu_link));;
        check_buttons menu_link) r = (Raise (TypeError msg), r).
Proof.
  unfold valid_menu_link.
  destruct (isinstance menu_link ty_PluginMenuItem) eqn:Hinst; simpl.
  - destruct (getattr_buttons _ Hinst) as [buttons Hb].
    unfold check_buttons. rewrite Hb. simpl. py_unfold.
    destruct (iter buttons) as [items|]; [|by eexists].
    apply (for_each_check (λ button, isinstance button ty_PluginMenuButton)).
    intros button s0. py_unfold.
    destruct (isinstance button ty_PluginMenuButton); simpl; [done|by eexists].
  - py_unfold. by eexists.
Qed.

(** A list that passes is stored under the section name; one that does not
    raises TypeError and the registry stays as it was. *)
Lemma register_menu_items_spec `{ButtonColorChoices} section_name class_list r :
  if forallb valid_menu_link class_list
  then register_menu_items section_name class_list r
       = (Ok tt, set_menu_items (λ d, <[section_name := class_list]> d) r)
  else ∃ msg, register_menu_items section_name class_list r = (Raise (TypeError msg), r).
Proof.
  unfold register_menu_items.
  pose proof (for_each_check valid_menu_link
    (λ menu_link,
       raise_if (negb (isinstance menu_link ty_PluginMenuItem))
                (TypeError (not_a_menu_item_message menu_link));;
       check_buttons menu_link) class_list r
    (λ x s0, menu_link_check x s0)) as Hloop.
  destruct (forallb valid_menu_link class_list).
  - by rewrite (bind_Ok _ _ _ _ _ Hloop).
  - destruct Hloop as [msg Hmsg]. exists msg. by apply bind_Raise.
Qed.

(** C4: if some element of the list is not a PluginMenuItem, or the buttons
    of some element hold something that is not a PluginMenuButton,
    [register_menu_items] raises TypeError and the registry, its menu_items
    mapping included, is what it was before the call. *)
Theorem register_menu_items_rejects `{ButtonColorChoices} section_name class_list r :
  Exists (λ menu_link,
    isinstance menu_link ty_PluginMenuItem = false ∨
    ∃ buttons items button,
      getattr menu_link "buttons" = Some buttons ∧
      iter buttons = Some items ∧
      button ∈ items ∧
      isinstance button ty_PluginMenuButton = false) class_list →
  ∃ msg, register_menu_items section_name class_list r = (Raise (TypeError msg), r).
Proof.
  intros Hbad.
  pose proof (register_menu_items_spec section_name class_list r) as Hspec.
  destruct (forallb valid_menu_link class_list) eqn:Hall; [|done].
  exfalso. rewrite forallb_forall in Hall.
  apply Exists_exists in Hbad as (menu_link & Hin & Hlink).
  apply list_elem_of_In, Hall in Hin. unfold valid_menu_link in Hin.
  apply andb_prop in Hin as [Hinst Hbuttons].
  destruct Hlink as [Hno|(buttons & items & button & Hb & Hi & Hbin & Hnot)];
    [congruence|].
  rewrite Hb in Hbuttons. simpl in Hbuttons. rewrite Hi in Hbuttons.
  rewrite forallb_forall in Hbuttons.
  apply list_elem_of_In, Hbuttons in Hbin. congruence.
Qed.

Example add_button_constructed :
  PluginMenuButton (H := sample_colors) (PyStr "plugins:acme:add") (PyStr "Add")
    (PyStr "mdi mdi-plus") (PyStr "blue") PyNone = Ok add_button.
Proof. reflexivity. Qed.

Example list_item_constructed :
  PluginMenuItem (PyStr "plugins:acme:list") (PyStr "Things") PyNone
    (PySeq ty_list [add_button]) = Ok list_item.
Proof. reflexivity. Qed.

Example about_item_constructed :
  PluginMenuItem (PyStr "plugins:acme:about") (PyStr "About") PyNone PyNone
  = Ok about_item.
Proof. reflexivity. Qed.

(** A list whose second element is a string is refused as a whole. *)
Lemma register_menu_items_rejects_witness :
  ∃ msg,
    register_menu_items (H := sample_colors) "Acme" [list_item; PyStr "about"]
      initial_registry
    = (Raise (TypeError msg), initial_registry).
Proof.
  apply (register_menu_items_rejects (H := sample_colors) "Acme"
           [list_item; PyStr "about"] initial_registry).
  apply Exists_cons_tl, Exists_cons_hd. left. reflexivity.
Defined.

(** C7: two calls of [register_menu_items] with the same section name and
    lists that pass both return, and then the registry holds the second list
    under that name, while every other section of menu_items is what it was
    before the second call (and before the first). *)
Theorem register_menu_items_last_write_wins `{ButtonColorChoices}
    section_name first second r :
  forallb valid_menu_link first = true →
  forallb valid_menu_link second = true →
  ∃ r1 r2,
    register_menu_items section_name first r = (Ok tt, r1) ∧
    register_menu_items section_name second r1 = (Ok tt, r2) ∧
    menu_items r1 !! section_name = Some first ∧
    menu_items r2 !! section_name = Some second ∧
    (∀ other, other ≠ section_name →
       menu_items r2 !! other = menu_items r1 !! other ∧
       menu_items r1 !! other = menu_items r !! other).
Proof.
  intros Hfirst Hsecond.
  pose proof (register_menu_items_spec section_name first r) as H1.
  rewrite Hfirst in H1.
  pose proof (register_menu_items_spec section_name second
                (set_menu_items (λ d, <[section_name := first]> d) r)) as H2.
  rewrite Hsecond in H2.
  eexists _, _. split_and!; [exact H1|exact H2| | |]; simpl.
  - apply lookup_insert_eq.
  - apply lookup_insert_eq.
  - intros other Hne. by rewrite !lookup_insert_ne.
Qed.

(** The section Acme is registered twice while the section Other holds a
    list of its own. *)
Lemma register_menu_items_last_write_wins_witness :
  ∃ r1 r2,
    register_menu_items (H := sample_colors) "Acme" [list_item]
      (set_menu_items (λ d, <["Other" := [about_item]]> d) initial_registry)
    = (Ok tt, r1) ∧
    register_menu_items (H := sample_colors) "Acme" [about_item; list_item] r1
    = (Ok tt, r2) ∧
    menu_items r1 !! "Acme" = Some [list_item] ∧
    menu_items r2 !! "Acme" = Some [about_item; list_item] ∧
    (∀ other, other ≠ "Acme" →
       menu_items r2 !! other = menu_items r1 !! other ∧
       menu_items r1 !! other
       = menu_items (set_menu_items (λ d, <["Other" := [about_item]]> d)
                       initial_registry) !! other).
Proof.
  apply (register_menu_items_last_write_wins (H := sample_colors) "Acme"
           [list_item] [about_item; list_item]
           (set_menu_items (λ d, <["Other" := [about_item]]> d) initial_registry));
    reflexivity.
Defined.

(** ** Template extensions *)

Lemma register_template_extensions_cons c class_list :
  register_template_extensions (c :: class_list)
  = (register_one c;; register_template_extensions class_list).
Proof. reflexivity. Qed.

Lemma register_one_valid c model r :
  valid_template_extension c = true →
  class_model c = Some model →
  register_one c r
  = (Ok tt, set_template_extensions (defaultdict_append model c) r).
Proof.
  unfold valid_template_extension, register_one.
  intros [[Hclass Hsub]%andb_prop _]%andb_prop Hmodel.
  rewrite Hclass, Hsub, Hmodel. reflexivity.
Qed.

Lemma register_one_invalid c r :
  valid_template_extension c = false →
  ∃ msg, register_one c r = (Raise (TypeError msg), r).
Proof.
  unfold valid_template_extension, register_one. py_unfold. intros Hbad.
  destruct (inspect_isclass c); simpl; [|by eexists].
  destruct (class_issubclass c ty_PluginTemplateExtension); simpl; [|by eexists].
  destruct (class_model c); [|by eexists].
  done.
Qed.

(** A list of valid classes is registered whole: under every model, the
    classes of the list that declare it are appended, in the order of the
    list, to what the registry held. *)
Lemma register_template_extensions_valid class_list r :
  forallb valid_template_extension class_list = true →
  ∃ r',
    register_template_extensions class_list r = (Ok tt, r') ∧
    ∀ model,
      default [] (template_extensions r' !! model)
      = default [] (template_extensions r !! model)
        ++ filter (λ c, class_model c = Some model) class_list.
Proof.
  revert r. induction class_list as [|c class_list IH]; intros r Hall.
  - exists r. split; [done|]. intros model. by rewrite filter_nil, app_nil_r.
  - simpl in Hall. apply andb_prop in Hall as [Hc Hall].
    assert (∃ mc, class_model c = Some mc) as [mc Hmc].
    { unfold valid_template_extension in Hc.
      apply andb_prop in Hc as [_ Hm]. apply bool_decide_eq_true in Hm.
      destruct (class_model c); [by eexists|done]. }
    destruct (IH (set_template_extensions (defaultdict_append mc c) r) Hall)
      as (r' & Hrun & Hlists).
    exists r'. split.
    + rewrite register_template_extensions_cons.
      by rewrite (bind_Ok _ _ _ _ _ (register_one_valid c mc r Hc Hmc)).
    + intros model. rewrite Hlists. simpl. unfold defaultdict_append.
      rewrite filter_cons. destruct (decide (mc = model)) as [->|Hne].
      * rewrite lookup_insert_eq. simpl. rewrite decide_True by done.
        by rewrite <- app_assoc.
      * rewrite lookup_insert_ne by done.
        rewrite decide_False by congruence. done.
Qed.

(** C6: two lists of valid classes are registered one after the other, a
    class of the first and a class of the second declaring the same model.
    Both calls return, and the registry's list for that model is what it was
    followed by the first list's classes for the model and then the second
    list's: both classes are in it, the first before the second, and nothing
    that was there is displaced. *)
Theorem register_template_extensions_appends first second c1 c2 model r :
  forallb valid_template_extension first = true →
  forallb valid_template_extension second = true →
  c1 ∈ first → c2 ∈ second →
  class_model c1 = Some model → class_model c2 = Some model →
  ∃ r1 r2 before between after,
    register_template_extensions first r = (Ok tt, r1) ∧
    register_template_extensions second r1 = (Ok tt, r2) ∧
    template_extensions r2 !! model
    = Some (default [] (template_extensions r !! model)
            ++ filter (λ c, class_model c = Some model) first
            ++ filter (λ c, class_model c = Some model) second) ∧
    filter (λ c, class_model c = Some model) first
    ++ filter (λ c, class_model c = Some model) second
    = before ++ c1 :: between ++ c2 :: after.
Proof.
  intros Hfirst Hsecond Hin1 Hin2 Hm1 Hm2.
  destruct (register_template_extensions_valid first r Hfirst) as (r1 & Hrun1 & Hl1).
  destruct (register_template_extensions_valid second r1 Hsecond) as (r2 & Hrun2 & Hl2).
  assert (c1 ∈ filter (λ c, class_model c = Some model) first) as Hf1
    by (by apply list_elem_of_filter).
  assert (c2 ∈ filter (λ c, class_model c = Some model) second) as Hf2
    by (by apply list_elem_of_filter).
  apply list_elem_of_split in Hf1 as (before & mid1 & Heq1).
  apply list_elem_of_split in Hf2 as (mid2 & after & Heq2).
  exists r1, r2, before, (mid1 ++ mid2), after. split_and!; [done|done| |].
  - specialize (Hl2 model). rewrite (Hl1 model) in Hl2.
    rewrite <- app_assoc in Hl2.
    destruct (template_extensions r2 !! model) as [l|]; simpl in Hl2.
    + by rewrite Hl2.
    + rewrite Heq1 in Hl2. symmetry in Hl2.
      apply app_eq_nil in Hl2 as [_ Hl2]. apply app_eq_nil in Hl2 as [Hl2 _].
      by apply app_eq_nil in Hl2 as [_ Hl2].
  - rewrite Heq1, Heq2. by rewrite <- !app_assoc.
Qed.

Lemma register_template_extensions_appends_witness :
  ∃ r1 r2 before between after,
    register_template_extensions [site_panel; device_panel] initial_registry
    = (Ok tt, r1) ∧
    register_template_extensions [site_buttons] r1 = (Ok tt, r2) ∧
    template_extensions r2 !! "dcim.site"
    = Some (default [] (template_extensions initial_registry !! "dcim.site")
            ++ filter (λ c, class_model c = Some "dcim.site") [site_panel; device_panel]
            ++ filter (λ c, class_model c = Some "dcim.site") [site_buttons]) ∧
    filter (λ c, class_model c = Some "dcim.site") [site_panel; device_panel]
    ++ filter (λ c, class_model c = Some "dcim.site") [site_buttons]
    = before ++ site_panel :: between ++ site_buttons :: after.
Proof.
  apply (register_template_extensions_appends [site_panel; device_panel] [site_buttons]
           site_panel site_buttons "dcim.site" initial_registry).
  - reflexivity.
  - reflexivity.
  - apply list_elem_of_here.
  - apply list_elem_of_here.
  - reflexivity.
  - reflexivity.
Defined.

Example two_plugins_same_model :
  (register_template_extensions [site_panel];;
   register_template_extensions [site_buttons]) initial_registry
  = (Ok tt, set_template_extensions
              (λ _, {["dcim.site" := [site_panel; site_buttons]]}) initial_registry).
Proof. vm_compute. reflexivity. Qed.

Lemma valid_template_extension_model c :
  class_model c = None → valid_template_extension c = false.
Proof.
  intros Hnone. unfold valid_template_extension. rewrite Hnone.
  by rewrite andb_false_r.
Qed.

(** What a call with a class that has no model does: it raises TypeError,
    and the registry it leaves is the one a call with the classes before the
    first refused element leaves. *)
Lemma register_template_extensions_first_invalid class_list r :
  Exists (λ c, class_model c = None) class_list →
  ∃ accepted refused rest msg r',
    class_list = accepted ++ refused :: rest ∧
    forallb valid_template_extension accepted = true ∧
    valid_template_extension refused = false ∧
    register_template_extensions accepted r = (Ok tt, r') ∧
    register_template_extensions class_list r = (Raise (TypeError msg), r').
Proof.
  revert r. induction class_list as [|c class_list IH]; intros r Hex.
  - by apply Exists_nil in Hex.
  - destruct (valid_template_extension c) eqn:Hc.
    + assert (∃ mc, class_model c = Some mc) as [mc Hmc].
      { destruct (class_model c) eqn:Hm; [by eexists|].
        apply valid_template_extension_model in Hm. congruence. }
      apply Exists_cons in Hex as [Hhere|Hlater]; [congruence|].
      pose proof (register_one_valid c mc r Hc Hmc) as Hone.
      destruct (IH (set_template_extensions (defaultdict_append mc c) r) Hlater)
        as (accepted & refused & rest & msg & r' & -> & Hacc & Href & Hrun & Hraise).
      exists (c :: accepted), refused, rest, msg, r'. split_and!; try done.
      * simpl. by rewrite Hc.
      * rewrite register_template_extensions_cons. by rewrite (bind_Ok _ _ _ _ _ Hone).
      * simpl app. rewrite register_template_extensions_cons.
        by rewrite (bind_Ok _ _ _ _ _ Hone).
    + destruct (register_one_invalid c r Hc) as [msg Hmsg].
      exists [], c, class_list, msg, r. split_and!; try done.
      rewrite register_template_extensions_cons. by apply bind_Raise.
Qed.

(** C1, on the code: a call with a valid class followed by a class without a
    model raises TypeError, and the valid class stays registered: the
    template_extensions mapping is not what it was before the call. *)
Theorem register_template_extensions_partial_mutation :
  ∃ msg r',
    register_template_extensions [site_panel; unbound_panel] initial_registry
    = (Raise (TypeError msg), r') ∧
    template_extensions initial_registry !! "dcim.site" = None ∧
    template_extensions r' !! "dcim.site" = Some [site_panel].
Proof. eexists _, _. split_and!; vm_compute; reflexivity. Qed.

(** ** Menu buttons and their colors *)

(** C8, as the code has it: the permissions argument is checked before the
    color.  When it is None, a list or a tuple, a color that is neither None
    nor in [ButtonColorChoices.values()] raises ValueError, and a color that
    is None or in the values gives an instance; otherwise the constructor
    raises the TypeError of the permissions check whatever the color.  So no
    button with a color outside the palette is ever constructed. *)
Theorem menu_button_color_checked `{ButtonColorChoices}
    link title icon_class color permissions :
  (list_or_tuple_or_None permissions = true →
   is_None color = false → color_not_in_values color = true →
   PluginMenuButton link title icon_class color permissions
   = Raise (ValueError color_message)) ∧
  (list_or_tuple_or_None permissions = true →
   is_None color = true ∨ color_not_in_values color = false →
   ∃ self, PluginMenuButton link title icon_class color permissions
           = Ok (PyInst ty_PluginMenuButton self)) ∧
  (list_or_tuple_or_None permissions = false →
   PluginMenuButton link title icon_class color permissions
   = Raise (TypeError permissions_message)) ∧
  (is_None color = false → color_not_in_values color = true →
   ∃ e, PluginMenuButton link title icon_class color permissions = Raise e).
Proof.
  unfold list_or_tuple_or_None, PluginMenuButton, construct, PluginMenuButton__init__.
  py_unfold.
  destruct (is_None permissions), (type_not_in_list_tuple permissions),
    (is_None color), (color_not_in_values color); simpl;
    split_and!; intros; try done; try (by eexists); try (by intuition).
Qed.

Lemma menu_button_color_checked_witness :
  PluginMenuButton (H := sample_colors) (PyStr "plugins:acme:add") (PyStr "Add")
    (PyStr "mdi mdi-plus") (PyStr "magenta") (PySeq ty_list [PyStr "acme.add_thing"])
  = Raise (ValueError color_message).
Proof.
  apply (proj1 (menu_button_color_checked (H := sample_colors) (PyStr "plugins:acme:add")
                  (PyStr "Add") (PyStr "mdi mdi-plus") (PyStr "magenta")
                  (PySeq ty_list [PyStr "acme.add_thing"]))); reflexivity.
Defined.

(** A single permission passed as a string is refused first: neither the
    color outside the palette raises ValueError, nor does the omitted color
    give a button. *)
Lemma menu_button_color_counterexample :
  is_None (PyStr "magenta") = false ∧
  color_not_in_values (H := sample_colors) (PyStr "magenta") = true ∧
  PluginMenuButton (H := sample_colors) (PyStr "plugins:acme:add") (PyStr "Add")
    (PyStr "mdi mdi-plus") (PyStr "magenta") (PyStr "acme.add_thing")
  = Raise (TypeError permissions_message) ∧
  PluginMenuButton (H := sample_colors) (PyStr "plugins:acme:add") (PyStr "Add")
    (PyStr "mdi mdi-plus") PyNone (PyStr "acme.add_thing")
  = Raise (TypeError permissions_message).
Proof. split_and!; reflexivity. Qed.

(** ** The exact type test on permissions and buttons *)

Lemma proper_subclass_refused x :
  proper_subclass (type_of x) ty_list ∨ proper_subclass (type_of x) ty_tuple →
  is_None x = false ∧ type_not_in_list_tuple x = true.
Proof.
  unfold proper_subclass, type_not_in_list_tuple.
  intros [[Hne Hsub]|[Hne Hsub]]; (split; [by destruct x|]).
  - rewrite (bool_decide_eq_false_2 _ Hne). simpl.
    case_bool_decide as Ht; [|done]. by rewrite Ht in Hsub.
  - rewrite (bool_decide_eq_false_2 _ Hne), orb_false_r.
    case_bool_decide as Ht; [|done]. by rewrite Ht in Hsub.
Qed.

Lemma list_or_tuple_or_None_exact x :
  list_or_tuple_or_None x = true →
  x = PyNone ∨ type_of x = ty_list ∨ type_of x = ty_tuple.
Proof.
  unfold list_or_tuple_or_None, type_not_in_list_tuple. intros Hx.
  destruct (is_None x) eqn:Hnone; [left; by destruct x|].
  simpl in Hx. rewrite negb_involutive in Hx.
  apply orb_prop in Hx as [Ht%bool_decide_eq_true|Ht%bool_decide_eq_true]; auto.
Qed.

(** C10: the constructors test the exact class of [permissions] and
    [buttons].  An instance of a proper subclass of list or tuple raises
    TypeError as either argument of PluginMenuItem and as [permissions] of
    PluginMenuButton; and a constructor returns only when each of these
    arguments is None or has the class list or tuple itself. *)
Theorem permissions_buttons_exact_type `{ButtonColorChoices} :
  (∀ x,
     proper_subclass (type_of x) ty_list ∨ proper_subclass (type_of x) ty_tuple →
     (∀ link link_text buttons,
        PluginMenuItem link link_text x buttons
        = Raise (TypeError permissions_message)) ∧
     (∀ link link_text permissions,
        ∃ msg, PluginMenuItem link link_text permissions x = Raise (TypeError msg)) ∧
     (∀ link title icon_class color,
        PluginMenuButton link title icon_class color x
        = Raise (TypeError permissions_message))) ∧
  (∀ link link_text permissions buttons item,
     PluginMenuItem link link_text permissions buttons = Ok item →
     (permissions = PyNone ∨ type_of permissions = ty_list
      ∨ type_of permissions = ty_tuple) ∧
     (buttons = PyNone ∨ type_of buttons = ty_list ∨ type_of buttons = ty_tuple)) ∧
  (∀ link title icon_class color permissions button,
     PluginMenuButton link title icon_class color permissions = Ok button →
     permissions = PyNone ∨ type_of permissions = ty_list
     ∨ type_of permissions = ty_tuple).
Proof.
  split_and!.
  - intros x [Hnone Htype]%proper_subclass_refused.
    unfold PluginMenuItem, PluginMenuButton, construct,
      PluginMenuItem__init__, PluginMenuButton__init__.
    py_unfold. split_and!; intros.
    + by rewrite Hnone, Htype.
    + rewrite Hnone, Htype. simpl.
      destruct (is_None permissions), (type_not_in_list_tuple permissions);
        simpl; by eexists.
    + by rewrite Hnone, Htype.
  - intros link link_text permissions buttons item.
    unfold PluginMenuItem, construct, PluginMenuItem__init__. py_unfold.
    intros Hok. split; apply list_or_tuple_or_None_exact; unfold list_or_tuple_or_None;
      destruct (is_None permissions), (type_not_in_list_tuple permissions),
        (is_None buttons), (type_not_in_list_tuple buttons); simpl in *; done.
  - intros link title icon_class color permissions button.
    unfold PluginMenuButton, construct, PluginMenuButton__init__. py_unfold.
    intros Hok. apply list_or_tuple_or_None_exact; unfold list_or_tuple_or_None.
    destruct (is_None permissions), (type_not_in_list_tuple permissions),
      (is_None color), (color_not_in_values color); simpl in *; done.
Qed.

Lemma permissions_buttons_exact_type_witness :
  (proper_subclass (type_of permission_list) ty_list
   ∨ proper_subclass (type_of permission_list) ty_tuple) ∧
  isinstance permission_list ty_list = true ∧
  PluginMenuItem (PyStr "plugins:acme:list") (PyStr "Things") permission_list PyNone
  = Raise (TypeError permissions_message) ∧
  PluginMenuButton (H := sample_colors) (PyStr "plugins:acme:add") (PyStr "Add")
    (PyStr "mdi mdi-plus") PyNone permission_list
  = Raise (TypeError permissions_message).
Proof.
  assert (proper_subclass (type_of permission_list) ty_list
          ∨ proper_subclass (type_of permission_list) ty_tuple) as Hsub.
  { left. split; [discriminate|reflexivity]. }
  split_and!; [exact Hsub|reflexivity| |].
  - apply (proj1 (proj1 (permissions_buttons_exact_type (H := sample_colors))
                    permission_list Hsub)).
  - apply (proj2 (proj2 (proj1 (permissions_buttons_exact_type (H := sample_colors))
                           permission_list Hsub))).
Defined.

(** * Further properties of the module *)

(** ** [validate] as a whole *)

Lemma enforce_version_constraints_state `{VersionLib} {S} cls netbox_version (s : S) :
  enforce_version_constraints cls netbox_version s
  = ((enforce_version_constraints cls netbox_version s).1, s).
Proof.
  pose proof (enforce_version_constraints_reads cls netbox_version s) as Hs.
  destruct (enforce_version_constraints cls netbox_version s) as [res s']. simpl in *.
  by subst s'.
Qed.

(** The outcome of [validate], by its three steps. *)
Lemma validate_spec `{VersionLib} cls netbox_version (user_config : gmap string pyobj) :
  validate cls netbox_version user_config
  = match (enforce_version_constraints cls netbox_version user_config).1 with
    | Raise e => (Raise e, user_config)
    | Ok _ =>
        match first_missing (required_settings cls) user_config with
        | Some setting =>
            (Raise (ImproperlyConfigured (required_setting_message cls setting)),
             user_config)
        | None => (Ok tt, user_config ∪ list_to_map (default_settings cls))
        end
    end.
Proof.
  unfold validate.
  pose proof (enforce_version_constraints_state cls netbox_version user_config) as Hv.
  destruct ((enforce_version_constraints cls netbox_version user_config).1) as [[]|e].
  - rewrite (bind_Ok _ _ _ _ _ Hv).
    pose proof (verify_required_settings_spec cls user_config) as Hr.
    destruct (first_missing (required_settings cls) user_config).
    + by apply bind_Raise.
    + rewrite (bind_Ok _ _ _ _ _ Hr). apply apply_default_settings_spec.
  - by apply bind_Raise.
Qed.

Lemma enforce_version_constraints_accepts `{VersionLib} {S} cls netbox_version (s : S) :
  enforce_version_constraints cls netbox_version s = (Ok tt, s)
  ↔ version_accepted cls netbox_version.
Proof.
  unfold version_accepted, enforce_version_constraints, parse, version_gt. py_unfold.
  split.
  - intros Hrun. destruct (version_parse netbox_version) as [current|]; [|done].
    exists current. split; [done|].
    destruct (min_version cls) as [lo|].
    + destruct (version_parse lo) as [minimum|] eqn:Hplo; [|done].
      destruct (version_lt current minimum) eqn:Hlo; [done|].
      split; [intros ? [= <-]; by exists minimum|].
      destruct (max_version cls) as [hi|]; [|done].
      destruct (version_parse hi) as [maximum|] eqn:Hphi; [|done].
      destruct (version_lt maximum current) eqn:Hhi; [done|].
      intros ? [= <-]; by exists maximum.
    + split; [done|].
      destruct (max_version cls) as [hi|]; [|done].
      destruct (version_parse hi) as [maximum|] eqn:Hphi; [|done].
      destruct (version_lt maximum current) eqn:Hhi; [done|].
      intros ? [= <-]; by exists maximum.
  - intros (current & -> & Hmin & Hmax).
    destruct (min_version cls) as [lo|].
    + destruct (Hmin lo eq_refl) as (minimum & -> & ->).
      destruct (max_version cls) as [hi|]; [|done].
      by destruct (Hmax hi eq_refl) as (maximum & -> & ->).
    + destruct (max_version cls) as [hi|]; [|done].
      by destruct (Hmax hi eq_refl) as (maximum & -> & ->).
Qed.

(** X1: whenever [validate] raises, whichever exception, [user_config] is
    left as it was: no default is applied by a run that fails. *)
Theorem validate_raise_keeps_config `{VersionLib} cls netbox_version
    (user_config user_config' : gmap string pyobj) e :
  validate cls netbox_version user_config = (Raise e, user_config') →
  user_config' = user_config.
Proof.
  rewrite validate_spec.
  destruct ((enforce_version_constraints cls netbox_version user_config).1) as [[]|e'];
    [|by intros [= _ <-]].
  destruct (first_missing (required_settings cls) user_config); [|done].
  by intros [= _ <-].
Qed.

(** A host version above the maximum: the half-filled configuration stays
    half-filled. *)
Lemma validate_raise_keeps_config_witness :
  validate (H := ReleaseVersion.lib) acme "4.1" {["api_key" := PyStr "xyz"]}
  = (Raise (ImproperlyConfigured (max_version_message acme "4.0")),
     {["api_key" := PyStr "xyz"]}) ∧
  ({["api_key" := PyStr "xyz"]} : gmap string pyobj) = {["api_key" := PyStr "xyz"]}.
Proof.
  assert (validate (H := ReleaseVersion.lib) acme "4.1" {["api_key" := PyStr "xyz"]}
          = (Raise (ImproperlyConfigured (max_version_message acme "4.0")),
             {["api_key" := PyStr "xyz"]})) as Hrun by (vm_compute; reflexivity).
  split; [exact Hrun|].
  exact (validate_raise_keeps_config (H := ReleaseVersion.lib) _ _ _ _ _ Hrun).
Defined.

Lemma enforce_version_constraints_result `{VersionLib} {S} cls netbox_version (s s' : S) :
  (enforce_version_constraints cls netbox_version s).1
  = (enforce_version_constraints cls netbox_version s').1.
Proof.
  unfold enforce_version_constraints, parse. py_unfold.
  destruct (version_parse netbox_version) as [cur|]; [|done].
  destruct (min_version cls) as [lo|]; destruct (max_version cls) as [hi|];
    repeat first [ done | match goal with |- context [version_parse ?x] =>
      destruct (version_parse x) end | match goal with |- context [version_lt ?a ?b] =>
      destruct (version_lt a b) end | progress unfold version_gt ].
Qed.

Lemma first_missing_None_iff required (user_config : gmap string pyobj) :
  first_missing required user_config = None
  ↔ ∀ setting, setting ∈ required → is_Some (user_config !! setting).
Proof.
  split; [apply first_missing_None|].
  intros Hall. destruct (first_missing required user_config) as [missing|] eqn:Hfirst;
    [|done].
  destruct (first_missing_Some _ _ _ Hfirst) as (before & after & Heq & _ & Hnone).
  destruct (Hall missing) as [v Hv]; [|congruence].
  rewrite Heq. apply elem_of_app. right. apply list_elem_of_here.
Qed.

(** When [validate] returns, and what it then leaves. *)
Lemma validate_Ok `{VersionLib} cls netbox_version
    (user_config user_config' : gmap string pyobj) :
  validate cls netbox_version user_config = (Ok tt, user_config')
  ↔ (enforce_version_constraints cls netbox_version user_config).1 = Ok tt ∧
    first_missing (required_settings cls) user_config = None ∧
    user_config' = user_config ∪ list_to_map (default_settings cls).
Proof.
  rewrite validate_spec.
  destruct ((enforce_version_constraints cls netbox_version user_config).1) as [[]|e].
  - destruct (first_missing (required_settings cls) user_config).
    + split; [done|]. by intros (_ & ? & _).
    + split; [by intros [= <-]|]. by intros (_ & _ & ->).
  - split; [done|]. by intros (? & _).
Qed.

(** X2: [validate] returns exactly when the host version parses, each
    bound that is set parses and is not exceeded, and every required setting
    is a key of [user_config]; and it then leaves [user_config] united with
    the defaults, the configured values standing. *)
Theorem validate_returns_iff `{VersionLib} cls netbox_version
    (user_config : gmap string pyobj) :
  ((∃ user_config', validate cls netbox_version user_config = (Ok tt, user_config'))
   ↔ version_accepted cls netbox_version ∧
     ∀ setting, setting ∈ required_settings cls → is_Some (user_config !! setting)) ∧
  (∀ user_config', validate cls netbox_version user_config = (Ok tt, user_config') →
     user_config' = user_config ∪ list_to_map (default_settings cls)).
Proof.
  pose proof (enforce_version_constraints_accepts cls netbox_version user_config) as Hacc.
  rewrite (enforce_version_constraints_state cls netbox_version user_config) in Hacc.
  split.
  - split.
    + intros [user_config' (Hversion & Hreq & _)%validate_Ok]. split.
      * apply Hacc. by rewrite Hversion.
      * by apply first_missing_None_iff.
    + intros [Hversion Hreq]. eexists. apply validate_Ok. split_and!; [|  |done].
      * apply Hacc in Hversion. by injection Hversion.
      * by apply first_missing_None_iff.
  - by intros user_config' (_ & _ & ->)%validate_Ok.
Qed.

(** X3: after a run of [validate] that returns, every required setting and
    every key of [default_settings] is a key of the configuration, and so is
    every key it had. *)
Theorem validate_fills_config `{VersionLib} cls netbox_version
    (user_config user_config' : gmap string pyobj) :
  validate cls netbox_version user_config = (Ok tt, user_config') →
  (∀ setting, setting ∈ required_settings cls → is_Some (user_config' !! setting)) ∧
  (∀ setting value, (setting, value) ∈ default_settings cls →
     is_Some (user_config' !! setting)) ∧
  (∀ setting, is_Some (user_config !! setting) → is_Some (user_config' !! setting)).
Proof.
  intros (_ & Hreq & ->)%validate_Ok.
  assert (∀ setting, is_Some (user_config !! setting) →
            is_Some ((user_config ∪ list_to_map (default_settings cls)) !! setting))
    as Hkeep.
  { intros setting [v Hv]. exists v. by apply lookup_union_Some_l. }
  split_and!; [|  |done].
  - intros setting Hin. apply Hkeep. by apply (first_missing_None _ _ Hreq).
  - intros setting value Hin. rewrite lookup_union.
    destruct (user_config !! setting) as [v|]; [by rewrite union_Some_l|].
    rewrite (left_id_L None union).
    apply not_eq_None_Some. intros Hnone%not_elem_of_list_to_map_2.
    apply Hnone. apply list_elem_of_fmap. by exists (setting, value).
Qed.

Lemma validate_fills_config_witness :
  let user_config' : gmap string pyobj :=
    {["api_key" := PyStr "xyz"; "timeout" := PyInt 30]} in
  (∀ setting, setting ∈ required_settings acme → is_Some (user_config' !! setting)) ∧
  (∀ setting value, (setting, value) ∈ default_settings acme →
     is_Some (user_config' !! setting)) ∧
  (∀ setting, is_Some (({["api_key" := PyStr "xyz"]} : gmap string pyobj) !! setting) →
     is_Some (user_config' !! setting)).
Proof.
  apply (validate_fills_config (H := ReleaseVersion.lib) acme "3.7.0"
           {["api_key" := PyStr "xyz"]}).
  vm_compute. reflexivity.
Defined.

(** X4: a configuration that [validate] has accepted and filled is accepted
    again, and the second run changes nothing. *)
Theorem validate_again `{VersionLib} cls netbox_version
    (user_config user_config' : gmap string pyobj) :
  validate cls netbox_version user_config = (Ok tt, user_config') →
  validate cls netbox_version user_config' = (Ok tt, user_config').
Proof.
  intros (Hversion & Hreq & ->)%validate_Ok. apply validate_Ok. split_and!.
  - by rewrite (enforce_version_constraints_result cls netbox_version _ user_config).
  - apply first_missing_None_iff. intros setting Hin.
    destruct (first_missing_None _ _ Hreq setting Hin) as [v Hv].
    exists v. by apply lookup_union_Some_l.
  - rewrite <- (assoc_L (∪)). by rewrite (idemp_L (∪)).
Qed.

Lemma validate_again_witness :
  validate (H := ReleaseVersion.lib) acme "3.7.0"
    {["api_key" := PyStr "xyz"; "timeout" := PyInt 30]}
  = (Ok tt, {["api_key" := PyStr "xyz"; "timeout" := PyInt 30]}).
Proof.
  apply (validate_again (H := ReleaseVersion.lib) acme "3.7.0"
           {["api_key" := PyStr "xyz"]}).
  vm_compute. reflexivity.
Defined.

(** X5: the bounds are inclusive.  A host version whose string is the
    plugin's minimum, its maximum, or both, passes the version check. *)
Theorem version_bounds_inclusive `{VersionLib} {S} cls netbox_version current (s : S) :
  version_parse netbox_version = Some current →
  (min_version cls = None ∨ min_version cls = Some netbox_version) →
  (max_version cls = None ∨ max_version cls = Some netbox_version) →
  enforce_version_constraints cls netbox_version s = (Ok tt, s).
Proof.
  intros Hparse Hmin Hmax. apply enforce_version_constraints_accepts.
  exists current. split_and!; [done| |].
  - intros lo Hlo. destruct Hmin as [Hmin|Hmin]; [congruence|].
    exists current. rewrite Hlo in Hmin. injection Hmin as ->.
    split; [done|apply version_lt_irrefl].
  - intros hi Hhi. destruct Hmax as [Hmax|Hmax]; [congruence|].
    exists current. rewrite Hhi in Hmax. injection Hmax as ->.
    split; [done|apply version_lt_irrefl].
Qed.

(** The host is at the maximum 4.0 of the plugin acme. *)
Lemma version_bounds_inclusive_witness :
  enforce_version_constraints (H := ReleaseVersion.lib)
    {| __module__ := "acme"; min_version := None; max_version := Some "4.0";
       default_settings := []; required_settings := [] |} "4.0" tt
  = (Ok tt, tt).
Proof.
  apply (version_bounds_inclusive (H := ReleaseVersion.lib) _ "4.0" [4%N] tt).
  - reflexivity.
  - left. reflexivity.
  - right. reflexivity.
Defined.

(** X6: the minimum is checked before anything else of the descriptor is
    looked at.  A host version below the minimum raises the minimum-version
    error whatever the maximum (even one that does not parse), the required
    settings and the defaults are, and the configuration is not touched. *)
Theorem validate_minimum_first `{VersionLib} cls netbox_version
    (user_config : gmap string pyobj) lo minimum current :
  min_version cls = Some lo →
  version_parse lo = Some minimum →
  version_parse netbox_version = Some current →
  version_lt current minimum = true →
  validate cls netbox_version user_config
  = (Raise (ImproperlyConfigured (min_version_message cls lo)), user_config).
Proof.
  intros Hlo Hmin Hcur Hbelow. unfold validate. apply bind_Raise.
  unfold enforce_version_constraints, parse. py_unfold.
  by rewrite Hcur, Hlo, Hmin, Hbelow.
Qed.

(** The maximum is not a version, and the required setting is missing: the
    host 3.4 is still reported as below the minimum 3.5. *)
Lemma validate_minimum_first_witness :
  validate (H := ReleaseVersion.lib)
    {| __module__ := "acme"; min_version := Some "3.5"; max_version := Some "latest";
       default_settings := [("timeout", PyInt 30)]; required_settings := ["api_key"] |}
    "3.4" ∅
  = (Raise (ImproperlyConfigured
       [Lit "Plugin "; Interp (PyStr "acme"); Lit " requires NetBox minimum version ";
        Interp (PyStr "3.5"); Lit "."]), ∅).
Proof.
  exact (validate_minimum_first (H := ReleaseVersion.lib)
           {| __module__ := "acme"; min_version := Some "3.5";
              max_version := Some "latest";
              default_settings := [("timeout", PyInt 30)];
              required_settings := ["api_key"] |}
           "3.4" ∅ "3.5" [3%N; 5%N] [3%N; 4%N] eq_refl eq_refl eq_refl eq_refl).
Defined.

(** X7: the host version is parsed before the descriptor is consulted.  A
    host version string the version library rejects makes [validate] raise
    the library's InvalidVersion, also for a plugin that sets no bound, and
    the configuration is not touched. *)
Theorem validate_unparsable_host `{VersionLib} cls netbox_version
    (user_config : gmap string pyobj) :
  version_parse netbox_version = None →
  validate cls netbox_version user_config
  = (Raise (InvalidVersion netbox_version), user_config).
Proof.
  intros Hparse. unfold validate. apply bind_Raise.
  unfold enforce_version_constraints, parse. py_unfold. by rewrite Hparse.
Qed.

Lemma validate_unparsable_host_witness :
  validate (H := ReleaseVersion.lib)
    {| __module__ := "acme"; min_version := None; max_version := None;
       default_settings := []; required_settings := [] |} "3..7" ∅
  = (Raise (InvalidVersion "3..7"), ∅).
Proof.
  apply (validate_unparsable_host (H := ReleaseVersion.lib)). reflexivity.
Defined.

(** ** What [register_template_extensions] keeps *)

(** What the appends of valid classes of the list keep, a call keeps,
    whether it returns or raises. *)
Lemma register_template_extensions_keeps (P : plugins_registry → Prop) class_list r :
  (∀ c model r0,
     c ∈ class_list → valid_template_extension c = true → class_model c = Some model →
     P r0 → P (set_template_extensions (defaultdict_append model c) r0)) →
  P r → P (register_template_extensions class_list r).2.
Proof.
  revert r. induction class_list as [|c class_list IH]; intros r Hstep HP; [done|].
  rewrite register_template_extensions_cons.
  destruct (valid_template_extension c) eqn:Hc.
  - assert (∃ mc, class_model c = Some mc) as [mc Hmc].
    { destruct (class_model c) eqn:Hm; [by eexists|].
      apply valid_template_extension_model in Hm. congruence. }
    rewrite (bind_Ok _ _ _ _ _ (register_one_valid c mc r Hc Hmc)).
    apply IH.
    + intros c' model r0 Hin. apply Hstep. by apply list_elem_of_further.
    + apply Hstep; [apply list_elem_of_here|done|done|done].
  - destruct (register_one_invalid c r Hc) as [msg Hmsg].
    by rewrite (bind_Raise _ _ _ _ _ Hmsg).
Qed.

(** X8: a call returns when every element of the list is a subclass of
    PluginTemplateExtension with a model, and raises TypeError otherwise,
    wherever in the list the offending element is. *)
Theorem register_template_extensions_outcome class_list r :
  if forallb valid_template_extension class_list
  then ∃ r', register_template_extensions class_list r = (Ok tt, r')
  else ∃ msg r', register_template_extensions class_list r = (Raise (TypeError msg), r').
Proof.
  destruct (forallb valid_template_extension class_list) eqn:Hall.
  - destruct (register_template_extensions_valid class_list r Hall) as (r' & Hrun & _).
    by exists r'.
  - revert r. induction class_list as [|c class_list IH]; intros r; [done|].
    rewrite register_template_extensions_cons. simpl in Hall.
    destruct (valid_template_extension c) eqn:Hc; simpl in Hall.
    + assert (∃ mc, class_model c = Some mc) as [mc Hmc].
      { destruct (class_model c) eqn:Hm; [by eexists|].
        apply valid_template_extension_model in Hm. congruence. }
      rewrite (bind_Ok _ _ _ _ _ (register_one_valid c mc r Hc Hmc)).
      by apply IH.
    + destruct (register_one_invalid c r Hc) as [msg Hmsg].
      exists msg, r. by apply bind_Raise.
Qed.

(** X9: the registry never holds anything but subclasses of
    PluginTemplateExtension with a model, each under its own model: a call
    that starts from such a registry leaves such a registry, whether it
    returns or raises. *)
Theorem register_template_extensions_files_classes class_list r :
  classes_filed r →
  classes_filed (register_template_extensions class_list r).2.
Proof.
  apply register_template_extensions_keeps.
  intros c model r0 _ Hc Hmodel Hfiled model' classes c'. simpl.
  unfold defaultdict_append. destruct (decide (model = model')) as [<-|Hne].
  - rewrite lookup_insert_eq. intros [= <-] [Hold|Hnew%list_elem_of_singleton]%elem_of_app.
    + destruct (template_extensions r0 !! model) as [old|] eqn:Hlook; simpl in Hold.
      * by apply (Hfiled model old).
      * by apply elem_of_nil in Hold.
    + by subst c'.
  - rewrite lookup_insert_ne by done. apply Hfiled.
Qed.

Lemma register_template_extensions_files_classes_witness :
  classes_filed
    (register_template_extensions [site_panel; unbound_panel; device_panel]
       initial_registry).2.
Proof.
  apply (register_template_extensions_files_classes
           [site_panel; unbound_panel; device_panel] initial_registry).
  intros model classes c Hlook. simpl in Hlook. by rewrite lookup_empty in Hlook.
Defined.

(** X10: a call, whether it returns or raises, writes to nothing but the
    lists of the models its classes declare: the other four parts of the
    registry and the list of every other model are what they were. *)
Theorem register_template_extensions_frame class_list r :
  let r' := (register_template_extensions class_list r).2 in
  graphql_schemas r' = graphql_schemas r ∧
  menus r' = menus r ∧
  menu_items r' = menu_items r ∧
  preferences r' = preferences r ∧
  ∀ model, (∀ c, c ∈ class_list → class_model c ≠ Some model) →
           template_extensions r' !! model = template_extensions r !! model.
Proof.
  apply (register_template_extensions_keeps (λ r',
    graphql_schemas r' = graphql_schemas r ∧
    menus r' = menus r ∧
    menu_items r' = menu_items r ∧
    preferences r' = preferences r ∧
    ∀ model, (∀ c, c ∈ class_list → class_model c ≠ Some model) →
             template_extensions r' !! model = template_extensions r !! model));
    [|done].
  intros c mc r0 Hin _ Hmc (Hg & Hm & Hi & Hp & Hte). simpl. split_and!; try done.
  intros model Hother. unfold defaultdict_append.
  rewrite lookup_insert_ne; [by apply Hte|].
  intros ->. by apply (Hother c).
Qed.

(** ** The registrars without checks *)

(** X11: [register_graphql_schema] takes any object and never raises;
    schemas registered one after the other follow those the registry held,
    in the order of the calls, and nothing else in the registry changes. *)
Theorem register_graphql_schema_appends (schemas : list pyobj) r :
  for_each schemas register_graphql_schema r
  = (Ok tt, set_graphql_schemas (λ held, held ++ schemas) r).
Proof.
  revert r. induction schemas as [|schema schemas IH]; intros r; simpl.
  - destruct r. unfold set_graphql_schemas. simpl. by rewrite app_nil_r.
  - rewrite (bind_Ok _ _ r tt (set_graphql_schemas (λ l, l ++ [schema]) r) eq_refl).
    rewrite IH. destruct r. unfold set_graphql_schemas. simpl. by rewrite <- app_assoc.
Qed.



(** ** What the menu constructors build *)

Lemma construct_Ok cls init obj :
  construct cls init = Ok obj →
  ∃ self, init [] = (Ok tt, self) ∧ obj = PyInst cls self.
Proof.
  unfold construct. destruct (init []) as [[[]|e] self]; [|done].
  intros [= <-]. by exists self.
Qed.

(** The class and the buttons of an item that [PluginMenuItem] returns. *)
Lemma constructed_item_buttons `{ButtonColorChoices}
    link link_text permissions buttons item :
  PluginMenuItem link link_text permissions buttons = Ok item →
  type_of item = ty_PluginMenuItem ∧
  getattr item "buttons" = Some (if is_None buttons then PySeq ty_list [] else buttons).
Proof.
  intros (self & Hinit & ->)%construct_Ok. revert Hinit.
  unfold PluginMenuItem__init__. py_unfold.
  destruct (is_None permissions), (is_None buttons); simpl;
    repeat match goal with
           | |- context [type_not_in_list_tuple ?x] =>
               destruct (type_not_in_list_tuple x); simpl
           end; try done; by intros [= <-].
Qed.

(** X13: a menu item that [PluginMenuItem] returns is an instance of
    PluginMenuItem whose [link] and [link_text] are the arguments, and whose
    [permissions] and [buttons] are the arguments too, or the empty list of
    the class where the argument was omitted. *)
Theorem menu_item_reads_back `{ButtonColorChoices} link link_text permissions buttons item :
  PluginMenuItem link link_text permissions buttons = Ok item →
  type_of item = ty_PluginMenuItem ∧
  getattr item "link" = Some link ∧
  getattr item "link_text" = Some link_text ∧
  getattr item "permissions"
  = Some (if is_None permissions then PySeq ty_list [] else permissions) ∧
  getattr item "buttons" = Some (if is_None buttons then PySeq ty_list [] else buttons).
Proof.
  intros (self & Hinit & ->)%construct_Ok. revert Hinit.
  unfold PluginMenuItem__init__. py_unfold.
  destruct (is_None permissions), (is_None buttons); simpl;
    repeat match goal with
           | |- context [type_not_in_list_tuple ?x] =>
               destruct (type_not_in_list_tuple x); simpl
           end; try done; intros [= <-]; by split_and!.
Qed.

Lemma menu_item_reads_back_witness :
  type_of list_item = ty_PluginMenuItem ∧
  getattr (H := sample_colors) list_item "link" = Some (PyStr "plugins:acme:list") ∧
  getattr (H := sample_colors) list_item "link_text" = Some (PyStr "Things") ∧
  getattr (H := sample_colors) list_item "permissions" = Some (PySeq ty_list []) ∧
  getattr (H := sample_colors) list_item "buttons" = Some (PySeq ty_list [add_button]).
Proof.
  apply (menu_item_reads_back (H := sample_colors) (PyStr "plugins:acme:list")
           (PyStr "Things") PyNone (PySeq ty_list [add_button]) list_item).
  reflexivity.
Defined.

(** X14: a button that [PluginMenuButton] returns is an instance of
    PluginMenuButton that reads back its arguments, and its color is a string
    of [ButtonColorChoices]: the given one, which is among the values, or
    the default of the class where the color was omitted. *)
Theorem menu_button_reads_back `{ButtonColorChoices}
    link title icon_class color permissions button :
  PluginMenuButton link title icon_class color permissions = Ok button →
  type_of button = ty_PluginMenuButton ∧
  getattr button "link" = Some link ∧
  getattr button "title" = Some title ∧
  getattr button "icon_class" = Some icon_class ∧
  getattr button "permissions"
  = Some (if is_None permissions then PySeq ty_list [] else permissions) ∧
  ∃ name,
    getattr button "color" = Some (PyStr name) ∧
    (if is_None color then name = DEFAULT else color = PyStr name ∧ name ∈ values).
Proof.
  intros (self & Hinit & ->)%construct_Ok. revert Hinit.
  unfold PluginMenuButton__init__. py_unfold.
  destruct (is_None permissions); simpl;
    repeat match goal with
           | |- context [type_not_in_list_tuple ?x] =>
               destruct (type_not_in_list_tuple x); simpl
           end; try done;
    (destruct (is_None color) eqn:Hnone; simpl;
     [intros [= <-]; split_and!; try done; by eexists|]);
    (destruct (color_not_in_values color) eqn:Hcolor; simpl; [done|]);
    intros [= <-]; split_and!; try done;
    (destruct color as [| | |name| | |]; try done; exists name; split; [done|];
     split; [done|]; simpl in Hcolor; apply negb_false_iff in Hcolor;
     by apply bool_decide_eq_true in Hcolor).
Qed.

Lemma menu_button_reads_back_witness :
  type_of add_button = ty_PluginMenuButton ∧
  getattr (H := sample_colors) add_button "link" = Some (PyStr "plugins:acme:add") ∧
  getattr (H := sample_colors) add_button "title" = Some (PyStr "Add") ∧
  getattr (H := sample_colors) add_button "icon_class" = Some (PyStr "mdi mdi-plus") ∧
  getattr (H := sample_colors) add_button "permissions" = Some (PySeq ty_list []) ∧
  ∃ name,
    getattr (H := sample_colors) add_button "color" = Some (PyStr name) ∧
    (PyStr "blue" = PyStr name ∧ name ∈ values (ButtonColorChoices := sample_colors)).
Proof.
  apply (menu_button_reads_back (H := sample_colors) (PyStr "plugins:acme:add")
           (PyStr "Add") (PyStr "mdi mdi-plus") (PyStr "blue") PyNone add_button).
  reflexivity.
Defined.

(** ** From the constructors to the registrars *)

Lemma constructed_button_isinstance `{ButtonColorChoices}
    link title icon_class color permissions button :
  PluginMenuButton link title icon_class color permissions = Ok button →
  isinstance button ty_PluginMenuButton = true.
Proof. by intros (self & _ & ->)%construct_Ok. Qed.

(** X15: [register_menu_items] accepts what the constructors build.  A list
    of items returned by [PluginMenuItem], each with its buttons omitted or
    given as a list or tuple of buttons returned by [PluginMenuButton], is
    stored under the section name. *)
Theorem constructed_items_are_registered `{ButtonColorChoices} section_name class_list r :
  Forall (λ item,
    ∃ link link_text permissions buttons,
      PluginMenuItem link link_text permissions buttons = Ok item ∧
      (buttons = PyNone ∨
       ∃ t built, buttons = PySeq t built ∧
         Forall (λ button,
           ∃ link title icon_class color permissions,
             PluginMenuButton link title icon_class color permissions = Ok button)
           built)) class_list →
  register_menu_items section_name class_list r
  = (Ok tt, set_menu_items (λ d, <[section_name := class_list]> d) r).
Proof.
  intros Hbuilt.
  pose proof (register_menu_items_spec section_name class_list r) as Hspec.
  assert (forallb valid_menu_link class_list = true) as Hall; [|by rewrite Hall in Hspec].
  apply forallb_forall. intros item Hin. apply list_elem_of_In in Hin.
  rewrite Forall_forall in Hbuilt.
  destruct (Hbuilt item Hin) as (link & link_text & permissions & buttons & Hitem & Hb).
  destruct (constructed_item_buttons _ _ _ _ _ Hitem) as [Htype Hbuttons].
  unfold valid_menu_link, isinstance. rewrite Htype, Hbuttons. simpl.
  destruct Hb as [->|(t & built & -> & Hbuttons')]; [done|]. simpl.
  apply forallb_forall. intros button Hbin. apply list_elem_of_In in Hbin.
  rewrite Forall_forall in Hbuttons'.
  destruct (Hbuttons' button Hbin) as (l & ti & ic & co & pe & Hbutton).
  by apply (constructed_button_isinstance l ti ic co pe).
Qed.

Lemma constructed_items_are_registered_witness :
  register_menu_items (H := sample_colors) "Acme" [list_item; about_item] initial_registry
  = (Ok tt, set_menu_items (λ d, <["Acme" := [list_item; about_item]]> d)
              initial_registry).
Proof.
  apply (constructed_items_are_registered (H := sample_colors) "Acme"
           [list_item; about_item] initial_registry).
  apply List.Forall_cons; [|apply List.Forall_cons; [|apply List.Forall_nil]].
  - exists (PyStr "plugins:acme:list"), (PyStr "Things"), PyNone,
      (PySeq ty_list [add_button]).
    split; [reflexivity|]. right. exists ty_list, [add_button]. split; [reflexivity|].
    apply List.Forall_cons; [|apply List.Forall_nil].
    exists (PyStr "plugins:acme:add"), (PyStr "Add"), (PyStr "mdi mdi-plus"),
      (PyStr "blue"), PyNone. reflexivity.
  - exists (PyStr "plugins:acme:about"), (PyStr "About"), PyNone, PyNone.
    split; [reflexivity|]. left. reflexivity.
Defined.

(** X16: [PluginMenuItem] checks the class of [buttons], not its elements:
    a list or tuple that holds something other than a PluginMenuButton gives
    an item all the same, and it is [register_menu_items] that refuses every
    list with that item in it, leaving the registry as it was. *)
Theorem unchecked_buttons_refused_at_registration `{ButtonColorChoices}
    link link_text permissions t held stray :
  permissions = PyNone ∨ type_of permissions = ty_list ∨ type_of permissions = ty_tuple →
  t = ty_list ∨ t = ty_tuple →
  stray ∈ held →
  isinstance stray ty_PluginMenuButton = false →
  ∃ item,
    PluginMenuItem link link_text permissions (PySeq t held) = Ok item ∧
    ∀ section_name class_list r,
      item ∈ class_list →
      ∃ msg, register_menu_items section_name class_list r = (Raise (TypeError msg), r).
Proof.
  intros Hperm Ht Hin Hstray.
  assert (∃ item, PluginMenuItem link link_text permissions (PySeq t held) = Ok item)
    as [item Hitem].
  { unfold PluginMenuItem, construct, PluginMenuItem__init__. py_unfold.
    assert (type_not_in_list_tuple (PySeq t held) = false) as ->
      by (destruct Ht as [->| ->]; reflexivity).
    destruct Hperm as [->|Hperm]; [by eexists|].
    assert (type_not_in_list_tuple permissions = false) as ->.
    { unfold type_not_in_list_tuple. by destruct Hperm as [->| ->]. }
    destruct (is_None permissions); by eexists. }
  exists item. split; [done|]. intros section_name class_list r Hitem_in.
  pose proof (register_menu_items_spec section_name class_list r) as Hspec.
  destruct (forallb valid_menu_link class_list) eqn:Hall; [|done].
  exfalso. rewrite forallb_forall in Hall.
  apply list_elem_of_In, Hall in Hitem_in.
  destruct (constructed_item_buttons _ _ _ _ _ Hitem) as [_ Hbuttons].
  unfold valid_menu_link in Hitem_in. rewrite Hbuttons in Hitem_in. simpl in Hitem_in.
  apply andb_prop in Hitem_in as [_ Hheld]. rewrite forallb_forall in Hheld.
  apply list_elem_of_In, Hheld in Hin. congruence.
Qed.

(** A link text slipped into the buttons. *)
Lemma unchecked_buttons_refused_at_registration_witness :
  ∃ item,
    PluginMenuItem (PyStr "plugins:acme:list") (PyStr "Things") PyNone
      (PySeq ty_list [add_button; PyStr "Add"]) = Ok item ∧
    ∀ section_name class_list r,
      item ∈ class_list →
      ∃ msg, register_menu_items (H := sample_colors) section_name class_list r
             = (Raise (TypeError msg), r).
Proof.
  apply (unchecked_buttons_refused_at_registration (H := sample_colors)
           (PyStr "plugins:acme:list") (PyStr "Things") PyNone ty_list
           [add_button; PyStr "Add"] (PyStr "Add")).
  - left. reflexivity.
  - left. reflexivity.
  - apply list_elem_of_further, list_elem_of_here.
  - reflexivity.
Defined.

(** ** Menus *)

Lemma menu_groups_pairs (MenuGroup : pyobj → pyobj → pyobj) t
    (pairs : list (pyobj * pyobj)) :
  menu_groups MenuGroup ((λ pair, PySeq t [pair.1; pair.2]) <$> pairs)
  = Ok ((λ pair, MenuGroup pair.1 pair.2) <$> pairs).
Proof.
  induction pairs as [|[label items] pairs IH]; [done|].
  rewrite !fmap_cons. simpl. simpl in IH. by rewrite IH.
Qed.

(** X17: [PluginMenu] builds one MenuGroup per (label, items) pair of
    [groups], in the order of [groups]; the menu keeps its label, and its
    icon is the one given, or the puzzle icon of the class where none is
    given.  [register_menu] accepts the menu and puts it after the menus the
    registry held. *)
Theorem plugin_menu_groups (MenuGroup : pyobj → pyobj → pyobj) label t t'
    (pairs : list (pyobj * pyobj)) icon_class r :
  ∃ menu,
    PluginMenu MenuGroup label (PySeq t ((λ pair, PySeq t' [pair.1; pair.2]) <$> pairs))
      icon_class = Ok menu ∧
    dict_get (instance_dict menu) "label" = Some label ∧
    dict_get (instance_dict menu) "groups"
    = Some (PySeq ty_list ((λ pair, MenuGroup pair.1 pair.2) <$> pairs)) ∧
    menu_icon_class menu
    = (if is_None icon_class then PyStr "mdi mdi-puzzle" else icon_class) ∧
    register_menu menu r = (Ok tt, set_menus (λ held, held ++ [menu]) r).
Proof.
  unfold PluginMenu, construct, PluginMenu__init__, for_in. py_unfold. simpl.
  rewrite menu_groups_pairs. simpl.
  destruct (is_None icon_class) eqn:Hnone; simpl; eexists; by split_and!.
Qed.



(** [register_menu] takes instances of PluginMenu and of its subclasses
    only. *)
Lemma register_menu_spec menu r :
  register_menu menu r
  = if isinstance menu ty_PluginMenu
    then (Ok tt, set_menus (λ held, held ++ [menu]) r)
    else (Raise (TypeError (not_a_menu_message menu)), r).
Proof. unfold register_menu. py_unfold. by destruct (isinstance menu ty_PluginMenu). Qed.

(** ** The context of a rendered template *)

(** X19: [render] gives the template the context of the extension merged
    with [extra_context], whose values stand where both have a key; leaving
    [extra_context] out is passing an empty dict, and the template then gets
    the context as it is.  An [extra_context] that is neither None nor a dict
    raises TypeError. *)
Theorem render_context {R} (get_template_render : string → gmap string pyobj → R)
    (self_context : gmap string pyobj) template_name :
  render get_template_render self_context template_name (inl PyNone)
  = Ok (get_template_render template_name self_context) ∧
  render get_template_render self_context template_name (inr ∅)
  = Ok (get_template_render template_name self_context) ∧
  (∀ extra_context : gmap string pyobj, ∃ merged : gmap string pyobj,
     render get_template_render self_context template_name (inr extra_context)
     = Ok (get_template_render template_name merged) ∧
     ∀ key, merged !! key = match extra_context !! key with
                            | Some value => Some value
                            | None => self_context !! key
                            end) ∧
  (∀ o, o ≠ PyNone →
     render get_template_render self_context template_name (inl o)
     = Raise (TypeError extra_context_message)).
Proof.
  unfold render, dict_merge. split_and!.
  - by rewrite (left_id_L ∅ (∪)).
  - by rewrite (left_id_L ∅ (∪)).
  - intros extra_context. exists (extra_context ∪ self_context). split; [done|].
    intros key. rewrite lookup_union.
    destruct (extra_context !! key); [by rewrite union_Some_l|].
    by rewrite (left_id_L None union).
  - intros o Ho. by destruct o.
Qed.

(** ** The plugin name *)

Lemma after_last_dot_None s : after_last_dot s = None ↔ has_dot s = false.
Proof.
  induction s as [|c s IH]; simpl; [done|].
  destruct (after_last_dot s) as [tail|].
  - split; [done|]. intros [_ Hs]%orb_false_elim. by apply IH in Hs.
  - rewrite (proj1 IH eq_refl), orb_false_r. by case_bool_decide.
Qed.

Lemma after_last_dot_Some s tail : after_last_dot s = Some tail → has_dot tail = false.
Proof.
  revert tail. induction s as [|c s IH]; intros tail; simpl; [done|].
  destruct (after_last_dot s) as [tail'|] eqn:Hs.
  - intros [= <-]. by apply IH.
  - case_bool_decide; [|done]. intros [= <-]. by apply after_last_dot_None.
Qed.

Lemma rsplit_last_app package name :
  has_dot name = false → rsplit_last (package ++ "." ++ name)%string = name.
Proof.
  intros Hname. unfold rsplit_last.
  assert (after_last_dot (package ++ "." ++ name)%string = Some name) as ->; [|done].
  induction package as [|c package IH].
  - apply after_last_dot_None in Hname.
    change (after_last_dot (String "."%char name) = Some name).
    simpl. by rewrite Hname.
  - change (after_last_dot (String c (package ++ "." ++ name)%string) = Some name).
    simpl. by rewrite IH.
Qed.

(** X20: the name under which [ready] files the user preferences,
    [self.name.rsplit('.', 1)[-1]], is the last dotted component of the
    plugin's name: the name itself when it has no dot, what follows the last
    dot otherwise; it never has a dot in it. *)
Theorem rsplit_last_component s :
  (has_dot s = false → rsplit_last s = s) ∧
  (∀ package name,
     s = (package ++ "." ++ name)%string → has_dot name = false →
     rsplit_last s = name) ∧
  has_dot (rsplit_last s) = false.
Proof.
  split_and!.
  - intros Hs. unfold rsplit_last. apply after_last_dot_None in Hs. by rewrite Hs.
  - intros package name -> Hname. by apply rsplit_last_app.
  - unfold rsplit_last. destruct (after_last_dot s) as [tail|] eqn:Hs; simpl.
    + by apply after_last_dot_Some in Hs.
    + by apply after_last_dot_None.
Qed.

Lemma rsplit_last_component_witness :
  rsplit_last "netbox_acme.plugins.acme" = "acme".
Proof.
  apply (proj1 (proj2 (rsplit_last_component "netbox_acme.plugins.acme"))
           "netbox_acme.plugins" "acme"); reflexivity.
Defined.

(** ** The plugin at application start *)

Section ready_properties.
Context {W : Type}.
Context (import_object : string → result pyobj).
Context (register_search : pyobj → py W unit).
Context `{ButtonColorChoices}.

Lemma for_each_on_search (indexes : list pyobj) (s : W * plugins_registry) :
  for_each indexes (λ idx, on_search (register_search idx)) s
  = let '(outcome, w) := for_each indexes register_search s.1 in (outcome, (w, s.2)).
Proof.
  revert s. induction indexes as [|idx indexes IH]; intros [w r]; simpl; [done|].
  unfold mbind, py_bind, on_search at 1. simpl.
  destruct (register_search idx w) as [[[]|e] w1]; [|done].
  by rewrite IH.
Qed.

(** X21: a plugin that provides none of the six components is started
    without a trace: [ready] returns and both registries are what they
    were. *)
Theorem ready_nothing_provided self (s : W * plugins_registry) :
  (∀ path, import_object path = Ok PyNone) →
  ready import_object register_search self s = (Ok tt, s).
Proof.
  intros Hnone. unfold ready. py_unfold. rewrite !Hnone. by destruct s.
Qed.

(** X22: [ready] registers the menu items under the display name of the
    plugin, but only a list that is not empty: for a plugin whose
    [menu_items] is the empty list, no section is made, whereas
    [register_menu_items] itself, given the empty list, does make one. *)
Theorem ready_menu_items self t class_list w r :
  import_object (dotted self (path_search_indexes self)) = Ok PyNone →
  import_object (dotted self (path_template_extensions self)) = Ok PyNone →
  import_object (dotted self (path_menu self)) = Ok PyNone →
  import_object (dotted self (path_menu_items self)) = Ok (PySeq t class_list) →
  import_object (dotted self (path_graphql_schema self)) = Ok PyNone →
  import_object (dotted self (path_user_preferences self)) = Ok PyNone →
  ready import_object register_search self (w, r)
  = match class_list with
    | [] => (Ok tt, (w, r))
    | _ :: _ =>
        ((register_menu_items (app_verbose_name self) class_list r).1,
         (w, (register_menu_items (app_verbose_name self) class_list r).2))
    end ∧
  register_menu_items (app_verbose_name self) [] r
  = (Ok tt, set_menu_items (λ d, <[app_verbose_name self := []]> d) r).
Proof.
  intros Hsearch Hte Hmenu Hitems Hgql Hprefs. split; [|done].
  unfold ready. py_unfold. rewrite Hsearch. simpl. rewrite Hte. simpl.
  rewrite Hmenu. simpl. rewrite Hitems.
  destruct class_list as [|menu_link class_list]; simpl.
  - by rewrite Hgql, Hprefs.
  - unfold for_in, on_plugins. simpl.
    destruct (register_menu_items (app_verbose_name self) (menu_link :: class_list) r)
      as [[[]|e] r']; simpl; [|done].
    by rewrite Hgql, Hprefs.
Qed.

(** X23: the user preferences of a plugin are filed under the last dotted
    component of its name, not under the name or the display name. *)
Theorem ready_user_preferences self package name prefs w r :
  app_name self = (package ++ "." ++ name)%string →
  has_dot name = false →
  is_None prefs = false →
  import_object (dotted self (path_search_indexes self)) = Ok PyNone →
  import_object (dotted self (path_template_extensions self)) = Ok PyNone →
  import_object (dotted self (path_menu self)) = Ok PyNone →
  import_object (dotted self (path_menu_items self)) = Ok PyNone →
  import_object (dotted self (path_graphql_schema self)) = Ok PyNone →
  import_object (dotted self (path_user_preferences self)) = Ok prefs →
  ready import_object register_search self (w, r)
  = (Ok tt, (w, set_preferences (λ d, <[name := prefs]> d) r)).
Proof.
  intros Hname Hdot Hsome Hsearch Hte Hmenu Hitems Hgql Hprefs.
  unfold ready. py_unfold. rewrite Hsearch. simpl. rewrite Hte. simpl.
  rewrite Hmenu. simpl. rewrite Hitems. simpl. rewrite Hgql. simpl.
  rewrite Hprefs, Hsome. simpl.
  by rewrite Hname, rsplit_last_app.
Qed.

(** X24: the search indexes of a plugin are handed to [register_search] one
    by one, in their order; a plugin that provides nothing else leaves the
    plugin registry as it was, and an index that [register_search] refuses
    ends [ready] with that exception. *)
Theorem ready_search_indexes self t indexes w r :
  import_object (dotted self (path_search_indexes self)) = Ok (PySeq t indexes) →
  import_object (dotted self (path_template_extensions self)) = Ok PyNone →
  import_object (dotted self (path_menu self)) = Ok PyNone →
  import_object (dotted self (path_menu_items self)) = Ok PyNone →
  import_object (dotted self (path_graphql_schema self)) = Ok PyNone →
  import_object (dotted self (path_user_preferences self)) = Ok PyNone →
  ready import_object register_search self (w, r)
  = ((for_each indexes register_search w).1,
     ((for_each indexes register_search w).2, r)).
Proof.
  intros Hsearch Hte Hmenu Hitems Hgql Hprefs.
  unfold ready. py_unfold. rewrite Hsearch.
  destruct indexes as [|idx indexes].
  - simpl. by rewrite Hte, Hmenu, Hitems, Hgql, Hprefs.
  - cbn [truthy]. unfold for_in. cbn [iter].
    rewrite (for_each_on_search (idx :: indexes) (w, r)). cbn [fst snd].
    destruct (for_each (idx :: indexes) register_search w) as [[[]|e] w']; [|done].
    simpl. by rewrite Hte, Hmenu, Hitems, Hgql, Hprefs.
Qed.

(** X25: [ready] registers component by component, template extensions
    before the menu, and an exception ends it where it is raised.  When the
    template extensions are valid and the menu is an object that is not a
    PluginMenu, [ready] raises the TypeError of [register_menu]; the template
    extensions stay registered, and the menu items, the GraphQL schema and
    the user preferences are not even looked up. *)
Theorem ready_stops_at_menu self t class_list menu w r :
  import_object (dotted self (path_search_indexes self)) = Ok PyNone →
  import_object (dotted self (path_template_extensions self)) = Ok (PySeq t class_list) →
  forallb valid_template_extension class_list = true →
  import_object (dotted self (path_menu self)) = Ok menu →
  truthy menu = true →
  isinstance menu ty_PluginMenu = false →
  ∃ r',
    register_template_extensions class_list r = (Ok tt, r') ∧
    ready import_object register_search self (w, r)
    = (Raise (TypeError (not_a_menu_message menu)), (w, r')).
Proof.
  intros Hsearch Hte Hvalid Hmenu Htruthy Hinst.
  destruct (register_template_extensions_valid class_list r Hvalid) as (r' & Hrun & _).
  exists r'. split; [done|].
  unfold ready. py_unfold. rewrite Hsearch. simpl. rewrite Hte. simpl.
  unfold for_in, on_plugins. simpl. rewrite Hrun. simpl.
  rewrite Hmenu, Htruthy. simpl. by rewrite register_menu_spec, Hinst.
Qed.

End ready_properties.

Lemma ready_nothing_provided_witness :
  ready (H := sample_colors) (provides []) record_index acme_app ([], initial_registry)
  = (Ok tt, ([], initial_registry)).
Proof.
  apply (ready_nothing_provided (H := sample_colors) (provides []) record_index acme_app
           ([], initial_registry)).
  reflexivity.
Defined.

(** The module of acme holds [menu_items = []]. *)
Lemma ready_menu_items_witness :
  ready (H := sample_colors)
    (provides [("netbox_acme.navigation.menu_items", PySeq ty_list [])])
    record_index acme_app ([], initial_registry)
  = (Ok tt, ([], initial_registry)) ∧
  register_menu_items (H := sample_colors) "Acme" [] initial_registry
  = (Ok tt, set_menu_items (λ d, <["Acme" := []]> d) initial_registry).
Proof.
  apply (ready_menu_items (H := sample_colors)
           (provides [("netbox_acme.navigation.menu_items", PySeq ty_list [])])
           record_index acme_app ty_list [] [] initial_registry); reflexivity.
Defined.

Lemma ready_user_preferences_witness :
  ready (H := sample_colors)
    (provides [("netbox_acme.preferences.preferences", PyStr "prefs")])
    record_index acme_app ([], initial_registry)
  = (Ok tt, ([], set_preferences (λ d, <["netbox_acme" := PyStr "prefs"]> d)
                   initial_registry)).
Proof.
  apply (ready_user_preferences (H := sample_colors)
           (provides [("netbox_acme.preferences.preferences", PyStr "prefs")])
           record_index acme_app "company" "netbox_acme" (PyStr "prefs")
           [] initial_registry); reflexivity.
Defined.

Lemma ready_search_indexes_witness :
  ready (H := sample_colors)
    (provides [("netbox_acme.search.indexes", PySeq ty_tuple [PyStr "a"; PyStr "b"])])
    record_index acme_app ([], initial_registry)
  = ((for_each [PyStr "a"; PyStr "b"] record_index []).1,
     ((for_each [PyStr "a"; PyStr "b"] record_index []).2, initial_registry)).
Proof.
  apply (ready_search_indexes (H := sample_colors)
           (provides [("netbox_acme.search.indexes",
                       PySeq ty_tuple [PyStr "a"; PyStr "b"])])
           record_index acme_app ty_tuple [PyStr "a"; PyStr "b"] [] initial_registry);
    reflexivity.
Defined.

(** The module of acme holds a template extension, and a menu item where
    the menu should be. *)
Lemma ready_stops_at_menu_witness :
  ∃ r',
    register_template_extensions [site_panel] initial_registry = (Ok tt, r') ∧
    ready (H := sample_colors)
      (provides [("netbox_acme.template_content.template_extensions",
                  PySeq ty_list [site_panel]);
                 ("netbox_acme.navigation.menu", about_item)])
      record_index acme_app ([], initial_registry)
    = (Raise (TypeError (not_a_menu_message about_item)), ([], r')).
Proof.
  apply (ready_stops_at_menu (H := sample_colors)
           (provides [("netbox_acme.template_content.template_extensions",
                       PySeq ty_list [site_panel]);
                      ("netbox_acme.navigation.menu", about_item)])
           record_index acme_app ty_list [site_panel] about_item [] initial_registry);
    reflexivity.
Defined.
